(** * Verification of the WebXR demo application (src/app.js)

    The development embeds the [App] class of src/app.js together with the
    part of its host (browser timers, asset loaders, the XR controller
    objects and the animation loop) that the class talks to, and proves the
    properties of the controller-driven locomotion and of the fallback-input
    state machine.

    Conventions of the embedding.
    - A field of [this] that the code may read before it is assigned is an
      [option]: [None] is JavaScript's [undefined].
    - JavaScript numbers occur in the modelled code only as decimal literals
      and in the arithmetic of the per-frame update; they are represented by
      the rationals they denote ([Q]).
    - Function objects handed to the host (arrow functions, the local
      functions of [setupXR], the bound [render]) are defunctionalised: a
      constructor of [Callback] per function, carrying what it captures.
    - Objects of the scene graph are referred to by identity ([Obj]); the XR
      controller objects live in a store indexed by controller index, so
      that every holder of a controller sees the same object.
    - Statements that only touch rendering collaborators (camera projection,
      statistics panel, loading bar, VR button) are left out. *)

From stdpp Require Import gmap strings list.
From Stdlib Require Import QArith Qminmax Qabs Lqa.

Close Scope Q_scope.

(** ** Values of the 3D engine *)

Record Vector3 := vec3 { vx : Q; vy : Q; vz : Q }.

Record Quaternion := quat { qx : Q; qy : Q; qz : Q; qw : Q }.

(** Identities of the objects the application creates or obtains. *)
Inductive Obj :=
| OScene
| ODolly
| OCamera
| ODummyCam
| OAmbient
| OModel (k : nat)
| OController (i : nat)
| OGrip (i : nat)
| OLine
| OUiMesh.

Definition Obj_eqb (a b : Obj) : bool :=
  match a, b with
  | OScene, OScene => true
  | ODolly, ODolly => true
  | OCamera, OCamera => true
  | ODummyCam, ODummyCam => true
  | OAmbient, OAmbient => true
  | OModel j, OModel k => Nat.eqb j k
  | OController j, OController k => Nat.eqb j k
  | OGrip j, OGrip k => Nat.eqb j k
  | OLine, OLine => true
  | OUiMesh, OUiMesh => true
  | _, _ => false
  end.

(** A list of children with [x] taken out. *)
Definition without (x : Obj) (l : list Obj) : list Obj :=
  List.filter (fun y => negb (Obj_eqb y x)) l.

(** [new THREE.Object3D()]: origin, identity rotation, no children. *)
Record Object3D := mkObject3D {
  position : Vector3;
  quaternion : Quaternion;
  children : list Obj
}.

Definition newObject3D : Object3D :=
  {| position := vec3 0 0 0; quaternion := quat 0 0 0 1; children := [] |}.

Definition set_position (p : Vector3) (o : Object3D) : Object3D :=
  {| position := p; quaternion := quaternion o; children := children o |}.

Definition set_quaternion (q : Quaternion) (o : Object3D) : Object3D :=
  {| position := position o; quaternion := q; children := children o |}.

(** [o.add(child)] *)
Definition add (child : Obj) (o : Object3D) : Object3D :=
  {| position := position o; quaternion := quaternion o;
     children := children o ++ [child] |}.

Inductive Texture :=
| envMapOf (file : string).

(** [new GazeController(scene, camera)] keeps the two objects it is given. *)
Record GazeController := mkGazeController {
  gazeScene : Obj;
  gazeCamera : Obj
}.

Record CanvasUI := mkCanvasUI {
  uiName : string;
  uiInfo : string;
  uiHeight : nat
}.

Inductive Json :=
| jsonOf (file : string).

(** ** Function objects handed to the host *)

Inductive Callback :=
| envLoaded                      (* setEnvironment, lines 73-77 *)
| envError                       (* setEnvironment, lines 78-80 *)
| model1Loaded                   (* loadModels, lines 98-116 *)
| model2Loaded                   (* loadModels, lines 102-115 *)
| model3Loaded                   (* loadModels, lines 107-114 *)
| boardDataFetched               (* constructor, lines 62-64 *)
| onSelectStart                  (* setupXR, lines 126-128 *)
| onSelectEnd                    (* setupXR, lines 130-132 *)
| onConnected (timeoutId : nat)  (* setupXR, lines 134-136; captures timeoutId *)
| connectionTimeout.             (* setupXR, lines 138-141 *)

(** The function given to [setAnimationLoop]. *)
Inductive FrameCallback :=
| renderBound.                   (* this.render.bind(this), line 165 *)

Inductive EventType :=
| selectstart
| selectend
| connected
| disconnected.

Definition EventType_eqb (a b : EventType) : bool :=
  match a, b with
  | selectstart, selectstart => true
  | selectend, selectend => true
  | connected, connected => true
  | disconnected, disconnected => true
  | _, _ => false
  end.

(** An XR controller object: [userData.selectPressed], its children, its
    registered listeners in registration order. *)
Record Controller := mkController {
  selectPressed : option bool;
  attached : list Obj;
  listeners : list (EventType * Callback)
}.

Definition newController : Controller :=
  {| selectPressed := None; attached := []; listeners := [] |}.

(** A pending [setTimeout]. *)
Record Timer := mkTimer {
  timerId : nat;
  due : nat;
  handler : Callback
}.

(** How a request was made: through one of the engine's loaders, or with
    the browser's [fetch]. *)
Inductive Transport :=
| viaLoader
| viaFetch.

(** A pending asynchronous request ([loader.load], [fetch]). *)
Record Request := mkRequest {
  url : string;
  onLoad : Callback;
  onError : option Callback;
  transport : Transport
}.

(** ** The state: the fields of [this] and the host *)

Record State := mkState {
  (* fields of the App instance *)
  camera : Object3D;
  dolly : option Object3D;
  dummyCam : Object3D;
  scene : list Obj;                      (* this.scene's children *)
  environment : option Texture;          (* this.scene.environment *)
  proxy : option Obj;
  useGaze : option bool;
  gazeController : option GazeController;
  controllers : option (list nat);
  ui : option CanvasUI;
  boardData : option Json;
  (* host: clock and timers *)
  now : nat;                             (* milliseconds *)
  nextTimeoutId : nat;
  timers : list Timer;
  (* host: loaders *)
  requests : list Request;
  (* host: renderer.xr *)
  xrEnabled : bool;
  xrControllers : gmap nat Controller;
  inputSources : nat;                    (* physical devices present *)
  animationLoop : option FrameCallback;
  (* host: observation *)
  console : list string;
  gazeInstances : list GazeController    (* every GazeController constructed *)
}.

Definition set_camera (v : Object3D) (s : State) : State :=
  mkState v (dolly s) (dummyCam s) (scene s) (environment s) (proxy s)
    (useGaze s) (gazeController s) (controllers s) (ui s) (boardData s)
    (now s) (nextTimeoutId s) (timers s) (requests s) (xrEnabled s)
    (xrControllers s) (inputSources s) (animationLoop s) (console s)
    (gazeInstances s).

Definition set_dolly (v : option Object3D) (s : State) : State :=
  mkState (camera s) v (dummyCam s) (scene s) (environment s) (proxy s)
    (useGaze s) (gazeController s) (controllers s) (ui s) (boardData s)
    (now s) (nextTimeoutId s) (timers s) (requests s) (xrEnabled s)
    (xrControllers s) (inputSources s) (animationLoop s) (console s)
    (gazeInstances s).

Definition set_dummyCam (v : Object3D) (s : State) : State :=
  mkState (camera s) (dolly s) v (scene s) (environment s) (proxy s)
    (useGaze s) (gazeController s) (controllers s) (ui s) (boardData s)
    (now s) (nextTimeoutId s) (timers s) (requests s) (xrEnabled s)
    (xrControllers s) (inputSources s) (animationLoop s) (console s)
    (gazeInstances s).

Definition set_scene (v : list Obj) (s : State) : State :=
  mkState (camera s) (dolly s) (dummyCam s) v (environment s) (proxy s)
    (useGaze s) (gazeController s) (controllers s) (ui s) (boardData s)
    (now s) (nextTimeoutId s) (timers s) (requests s) (xrEnabled s)
    (xrControllers s) (inputSources s) (animationLoop s) (console s)
    (gazeInstances s).

Definition set_environment (v : option Texture) (s : State) : State :=
  mkState (camera s) (dolly s) (dummyCam s) (scene s) v (proxy s)
    (useGaze s) (gazeController s) (controllers s) (ui s) (boardData s)
    (now s) (nextTimeoutId s) (timers s) (requests s) (xrEnabled s)
    (xrControllers s) (inputSources s) (animationLoop s) (console s)
    (gazeInstances s).

Definition set_useGaze (v : option bool) (s : State) : State :=
  mkState (camera s) (dolly s) (dummyCam s) (scene s) (environment s) (proxy s)
    v (gazeController s) (controllers s) (ui s) (boardData s)
    (now s) (nextTimeoutId s) (timers s) (requests s) (xrEnabled s)
    (xrControllers s) (inputSources s) (animationLoop s) (console s)
    (gazeInstances s).

Definition set_gazeController (v : option GazeController) (s : State) : State :=
  mkState (camera s) (dolly s) (dummyCam s) (scene s) (environment s) (proxy s)
    (useGaze s) v (controllers s) (ui s) (boardData s)
    (now s) (nextTimeoutId s) (timers s) (requests s) (xrEnabled s)
    (xrControllers s) (inputSources s) (animationLoop s) (console s)
    (gazeInstances s).

Definition set_controllers (v : option (list nat)) (s : State) : State :=
  mkState (camera s) (dolly s) (dummyCam s) (scene s) (environment s) (proxy s)
    (useGaze s) (gazeController s) v (ui s) (boardData s)
    (now s) (nextTimeoutId s) (timers s) (requests s) (xrEnabled s)
    (xrControllers s) (inputSources s) (animationLoop s) (console s)
    (gazeInstances s).

Definition set_ui (v : option CanvasUI) (s : State) : State :=
  mkState (camera s) (dolly s) (dummyCam s) (scene s) (environment s) (proxy s)
    (useGaze s) (gazeController s) (controllers s) v (boardData s)
    (now s) (nextTimeoutId s) (timers s) (requests s) (xrEnabled s)
    (xrControllers s) (inputSources s) (animationLoop s) (console s)
    (gazeInstances s).

Definition set_boardData (v : option Json) (s : State) : State :=
  mkState (camera s) (dolly s) (dummyCam s) (scene s) (environment s) (proxy s)
    (useGaze s) (gazeController s) (controllers s) (ui s) v
    (now s) (nextTimeoutId s) (timers s) (requests s) (xrEnabled s)
    (xrControllers s) (inputSources s) (animationLoop s) (console s)
    (gazeInstances s).

Definition set_now (v : nat) (s : State) : State :=
  mkState (camera s) (dolly s) (dummyCam s) (scene s) (environment s) (proxy s)
    (useGaze s) (gazeController s) (controllers s) (ui s) (boardData s)
    v (nextTimeoutId s) (timers s) (requests s) (xrEnabled s)
    (xrControllers s) (inputSources s) (animationLoop s) (console s)
    (gazeInstances s).

Definition set_nextTimeoutId (v : nat) (s : State) : State :=
  mkState (camera s) (dolly s) (dummyCam s) (scene s) (environment s) (proxy s)
    (useGaze s) (gazeController s) (controllers s) (ui s) (boardData s)
    (now s) v (timers s) (requests s) (xrEnabled s)
    (xrControllers s) (inputSources s) (animationLoop s) (console s)
    (gazeInstances s).

Definition set_timers (v : list Timer) (s : State) : State :=
  mkState (camera s) (dolly s) (dummyCam s) (scene s) (environment s) (proxy s)
    (useGaze s) (gazeController s) (controllers s) (ui s) (boardData s)
    (now s) (nextTimeoutId s) v (requests s) (xrEnabled s)
    (xrControllers s) (inputSources s) (animationLoop s) (console s)
    (gazeInstances s).

Definition set_requests (v : list Request) (s : State) : State :=
  mkState (camera s) (dolly s) (dummyCam s) (scene s) (environment s) (proxy s)
    (useGaze s) (gazeController s) (controllers s) (ui s) (boardData s)
    (now s) (nextTimeoutId s) (timers s) v (xrEnabled s)
    (xrControllers s) (inputSources s) (animationLoop s) (console s)
    (gazeInstances s).

Definition set_xrEnabled (v : bool) (s : State) : State :=
  mkState (camera s) (dolly s) (dummyCam s) (scene s) (environment s) (proxy s)
    (useGaze s) (gazeController s) (controllers s) (ui s) (boardData s)
    (now s) (nextTimeoutId s) (timers s) (requests s) v
    (xrControllers s) (inputSources s) (animationLoop s) (console s)
    (gazeInstances s).

Definition set_xrControllers (v : gmap nat Controller) (s : State) : State :=
  mkState (camera s) (dolly s) (dummyCam s) (scene s) (environment s) (proxy s)
    (useGaze s) (gazeController s) (controllers s) (ui s) (boardData s)
    (now s) (nextTimeoutId s) (timers s) (requests s) (xrEnabled s)
    v (inputSources s) (animationLoop s) (console s)
    (gazeInstances s).

Definition set_inputSources (v : nat) (s : State) : State :=
  mkState (camera s) (dolly s) (dummyCam s) (scene s) (environment s) (proxy s)
    (useGaze s) (gazeController s) (controllers s) (ui s) (boardData s)
    (now s) (nextTimeoutId s) (timers s) (requests s) (xrEnabled s)
    (xrControllers s) v (animationLoop s) (console s)
    (gazeInstances s).

Definition set_animationLoop (v : option FrameCallback) (s : State) : State :=
  mkState (camera s) (dolly s) (dummyCam s) (scene s) (environment s) (proxy s)
    (useGaze s) (gazeController s) (controllers s) (ui s) (boardData s)
    (now s) (nextTimeoutId s) (timers s) (requests s) (xrEnabled s)
    (xrControllers s) (inputSources s) v (console s)
    (gazeInstances s).

Definition set_console (v : list string) (s : State) : State :=
  mkState (camera s) (dolly s) (dummyCam s) (scene s) (environment s) (proxy s)
    (useGaze s) (gazeController s) (controllers s) (ui s) (boardData s)
    (now s) (nextTimeoutId s) (timers s) (requests s) (xrEnabled s)
    (xrControllers s) (inputSources s) (animationLoop s) v
    (gazeInstances s).

Definition set_gazeInstances (v : list GazeController) (s : State) : State :=
  mkState (camera s) (dolly s) (dummyCam s) (scene s) (environment s) (proxy s)
    (useGaze s) (gazeController s) (controllers s) (ui s) (boardData s)
    (now s) (nextTimeoutId s) (timers s) (requests s) (xrEnabled s)
    (xrControllers s) (inputSources s) (animationLoop s) (console s)
    v.

(** ** Host services used by the application *)

(** [setTimeout(handler, delay)]: a fresh id, due [delay] ms from now. *)
Definition setTimeout (h : Callback) (delay : nat) (s : State) : nat * State :=
  let id := nextTimeoutId s in
  (id, set_nextTimeoutId (S id)
         (set_timers (timers s ++ [mkTimer id (now s + delay) h]) s)).

(** [clearTimeout(id)]: the timer is dropped; an unknown id changes nothing. *)
Definition clearTimeout (id : nat) (s : State) : State :=
  set_timers (List.filter (fun t => negb (Nat.eqb (timerId t) id)) (timers s)) s.

(** [loader.load(url, onLoad, undefined, onError)]: the request is pending
    until the host reports its outcome. *)
Definition load (u : string) (ok : Callback) (err : option Callback)
    (s : State) : State :=
  set_requests (requests s ++ [mkRequest u ok err viaLoader]) s.

(** [fetch(url).then(..).then(ok)], lines 60-64: no rejection handler. *)
Definition fetchJson (u : string) (ok : Callback) (s : State) : State :=
  set_requests (requests s ++ [mkRequest u ok None viaFetch]) s.

(** [renderer.xr.getController(i)]: the controller object of index [i],
    created on first use and the same object afterwards. *)
Definition getController (i : nat) (s : State) : State :=
  set_xrControllers
    (match xrControllers s !! i with
     | Some _ => xrControllers s
     | None => <[i := newController]> (xrControllers s)
     end) s.

Definition updateController (i : nat) (f : Controller -> Controller)
    (s : State) : State :=
  set_xrControllers (alter f i (xrControllers s)) s.

Definition set_selectPressed (v : bool) (c : Controller) : Controller :=
  {| selectPressed := Some v; attached := attached c; listeners := listeners c |}.

Definition attach (child : Obj) (c : Controller) : Controller :=
  {| selectPressed := selectPressed c; attached := attached c ++ [child];
     listeners := listeners c |}.

(** [controller.addEventListener(type, listener)].  Every activation of
    [setupXR] creates its own function objects and registers each once per
    controller, so the engine's duplicate check never drops one. *)
Definition addEventListener (i : nat) (ty : EventType) (cb : Callback)
    (s : State) : State :=
  updateController i
    (fun c => {| selectPressed := selectPressed c; attached := attached c;
                 listeners := listeners c ++ [(ty, cb)] |}) s.

Definition set_children (l : list Obj) (o : Object3D) : Object3D :=
  {| position := position o; quaternion := quaternion o; children := l |}.

Definition set_attached (l : list Obj) (c : Controller) : Controller :=
  {| selectPressed := selectPressed c; attached := l; listeners := listeners c |}.

(** [parent.remove(child)] on an object and on a controller. *)
Definition removeFrom (child : Obj) (o : Object3D) : Object3D :=
  set_children (without child (children o)) o.

Definition removeFromHandle (child : Obj) (c : Controller) : Controller :=
  set_attached (without child (attached c)) c.

(** [child.removeFromParent()]: an object has at most one parent, so it is
    taken out of whichever list of children holds it. *)
Definition detach (child : Obj) (s : State) : State :=
  let s := set_scene (without child (scene s)) s in
  let s := set_camera (removeFrom child (camera s)) s in
  let s := set_dolly (removeFrom child <$> dolly s) s in
  let s := set_dummyCam (removeFrom child (dummyCam s)) s in
  set_xrControllers (removeFromHandle child <$> xrControllers s) s.

(** [parent.add(child)], as the engine does it: an object cannot be added
    to itself (the engine reports an error and changes nothing); otherwise
    the child leaves the parent it had and becomes the last child of
    [parent].  The children of models, grips, the light, the lines and the
    UI mesh are not part of the state.  An object made on the spot (a
    cloned line, a loaded model, the UI mesh) has no parent yet: the
    methods append it directly. *)
Definition addTo (parent child : Obj) (s : State) : State :=
  if Obj_eqb parent child
  then set_console
         (console s ++
          ["THREE.Object3D.add: object can't be added as a child of itself."]) s
  else
    let s := detach child s in
    match parent with
    | OScene => set_scene (scene s ++ [child]) s
    | ODolly => set_dolly (add child <$> dolly s) s
    | OCamera => set_camera (add child (camera s)) s
    | ODummyCam => set_dummyCam (add child (dummyCam s)) s
    | OController i => updateController i (attach child) s
    | _ => s
    end.

(** ** The methods of [App] *)

Definition hdrFile : string := "./assets/hdr/venice_sunset_1k.hdr".
Definition model1File : string := "models/model1.glb".
Definition model2File : string := "models/model2.glb".
Definition model3File : string := "models/model3.glb".
Definition boardFile : string := "./assets/boardData.json".

(** [setEnvironment()], lines 67-81. *)
Definition setEnvironment (s : State) : State :=
  load hdrFile envLoaded (Some envError) s.

(** [loadModels()], lines 89-117: only the first load is issued here, and
    without an error callback. *)
Definition loadModels (s : State) : State :=
  load model1File model1Loaded None s.

(** The body of the [for] loop of [buildControllers], lines 179-187. *)
Definition buildController (parent : Obj) (acc : list nat * State) (i : nat)
    : list nat * State :=
  let '(cs, s) := acc in
  let s := getController i s in
  let s := updateController i (attach OLine) s in
  let s := updateController i (set_selectPressed false) s in
  let s := addTo parent (OController i) s in
  let cs := cs ++ [i] in
  let s := addTo parent (OGrip i) s in
  (cs, s).

(** [buildControllers(parent = this.scene)], lines 168-191: the loop runs
    for [i = 0] and [i = 1]. *)
Definition buildControllers (parent : option Obj) (s : State)
    : list nat * State :=
  let parent := default OScene parent in
  fold_left (buildController parent) (seq 0 2) ([], s).

(** The argument [this.dolly] of the call on line 143. *)
Definition dollyRef (s : State) : option Obj :=
  match dolly s with
  | Some _ => Some ODolly
  | None => None
  end.

(** The body of the [forEach] of lines 145-149. *)
Definition wire (timeoutId : nat) (s : State) (i : nat) : State :=
  let s := addEventListener i selectstart onSelectStart s in
  let s := addEventListener i selectend onSelectEnd s in
  addEventListener i connected (onConnected timeoutId) s.

(** [setupXR()], lines 119-166. *)
Definition setupXR (s : State) : State :=
  let s := set_xrEnabled true s in
  let '(timeoutId, s) := setTimeout connectionTimeout 2000 s in
  let '(cs, s) := buildControllers (dollyRef s) s in
  let s := set_controllers (Some cs) s in
  let s := fold_left (wire timeoutId) cs s in
  let s := set_ui (Some (mkCanvasUI "name" "info" 256)) s in
  let s := set_scene (scene s ++ [OUiMesh]) s in
  set_animationLoop (Some renderBound) s.

(** The function objects, run with [this] bound to the controller the event
    was dispatched on (when there is one). *)
Definition call (cb : Callback) (this : option nat) (s : State) : State :=
  match cb with
  | envLoaded => set_environment (Some (envMapOf hdrFile)) s
  | envError =>
      set_console (console s ++ ["An error occurred setting the environment"]) s
  | model1Loaded =>
      load model2File model2Loaded None (set_scene (scene s ++ [OModel 1]) s)
  | model2Loaded =>
      load model3File model3Loaded None (set_scene (scene s ++ [OModel 2]) s)
  | model3Loaded =>
      setupXR (set_scene (scene s ++ [OModel 3]) s)
  | boardDataFetched => set_boardData (Some (jsonOf boardFile)) s
  | onSelectStart =>
      match this with
      | Some i => updateController i (set_selectPressed true) s
      | None => s
      end
  | onSelectEnd =>
      match this with
      | Some i => updateController i (set_selectPressed false) s
      | None => s
      end
  | onConnected timeoutId => clearTimeout timeoutId s
  | connectionTimeout =>
      let s := set_useGaze (Some true) s in
      let gc := mkGazeController OScene ODummyCam in
      set_gazeInstances (gazeInstances s ++ [gc])
        (set_gazeController (Some gc) s)
  end.

(** [new App()], lines 13-65, on a host with [n] physical input devices. *)
Definition constructor (n : nat) : State :=
  let camera := set_position (vec3 0 1.6 0) newObject3D in
  let dolly := set_position (vec3 0 0 10) newObject3D in
  let dolly := add OCamera dolly in
  let dummyCam := newObject3D in
  let camera := add ODummyCam camera in
  let s :=
    {| camera := camera; dolly := Some dolly; dummyCam := dummyCam;
       scene := [ODolly; OAmbient]; environment := None;
       proxy := None; useGaze := None; gazeController := None;
       controllers := None; ui := None; boardData := None;
       now := 0; nextTimeoutId := 1; timers := [];
       requests := [];
       xrEnabled := false; xrControllers := ∅; inputSources := n;
       animationLoop := None;
       console := []; gazeInstances := [] |} in
  let s := setEnvironment s in
  let s := loadModels s in
  fetchJson boardFile boardDataFetched s.

(** ** The per-frame update *)

Inductive Completion :=
| Normal
| ThrowTypeError.

Definition wallLimit : Q := 1.3.   (* line 196 *)
Definition speed : Q := 2.         (* line 197 *)

(** Modelled from the spec: the forward direction computed from an
    orientation (the statement computing it lies after line 202); it is the
    engine's world direction, the rotated +Z axis, negated. *)
Definition forward (q : Quaternion) : Vector3 :=
  (vec3 (- (2 * (qx q * qz q + qw q * qy q)))
        (- (2 * (qy q * qz q - qw q * qx q)))
        (- (1 - 2 * (qx q * qx q + qy q * qy q))))%Q.

(** Truthiness of [userData.selectPressed] of controller [i]. *)
Definition isPressed (s : State) (i : nat) : bool :=
  match xrControllers s !! i with
  | Some c => match selectPressed c with Some true => true | _ => false end
  | None => false
  end.

(** Modelled from the spec: "any Controller Handle reports selectPressed",
    over the handles of [this.controllers] (the test lies after line 202). *)
Definition anySelectPressed (s : State) : bool :=
  match controllers s with
  | Some cs => existsb (isPressed s) cs
  | None => false
  end.

(** Modelled from the spec: the symmetric boundary on one horizontal axis
    (the statements applying [wallLimit] lie after line 202). *)
Definition clampAxis (v : Q) : Q := Qmax (- wallLimit) (Qmin wallLimit v).

(** Modelled from the spec: where the rig would be after advancing along
    the forward direction at [speed] for [dt], before the boundary is
    applied (the statements lie after line 202). *)
Definition target (s : State) (d : Object3D) (dt : Q) : Vector3 :=
  let dir := forward (quaternion (dummyCam s)) in
  let p := position d in
  if anySelectPressed s
  then (vec3 (vx p + vx dir * (speed * dt))
             (vy p + vy dir * (speed * dt))
             (vz p + vz dir * (speed * dt)))%Q
  else p.

(** Modelled from the spec: the statements of [moveDolly] after line 202
    (the text of src/app.js ends inside the statement of line 203).  They
    are written from the per-frame update contract: the forward direction is
    computed from the orientation of the head-tracking frame; if any
    controller has [selectPressed] the rig advances along it by [speed * dt];
    the result is held within [wallLimit] on each horizontal axis. *)
Definition moveDolly_rest (s : State) (d : Object3D) (pos : Vector3)
    (saved : Quaternion) (dt : Q) : Completion * State :=
  let t := target s d dt in
  let p := vec3 (clampAxis (vx t)) (vy t) (clampAxis (vz t)) in
  (Normal, set_dolly (Some (set_position p (set_quaternion saved d))) s).

(** [moveDolly(dt)], lines 193-202, with the remaining statements as a
    parameter. *)
Definition moveDollyWith
    (rest : State -> Object3D -> Vector3 -> Quaternion -> Q -> Completion * State)
    (s : State) (dt : Q) : Completion * State :=
  match proxy s with
  | None => (Normal, s)                                   (* line 194 *)
  | Some _ =>
      match dolly s with
      | None => (ThrowTypeError, s)                       (* line 198 *)
      | Some d =>
          let pos := position d in
          let pos := vec3 (vx pos) (vy pos + 1)%Q (vz pos) in
          let saved := quaternion d in
          rest s d pos saved dt
      end
  end.

Definition moveDolly : State -> Q -> Completion * State :=
  moveDollyWith moveDolly_rest.

(** Modelled from the spec: [render] (bound on line 165, its text is not in
    src/app.js) performs the per-frame update once per rendered frame with
    the elapsed time. *)
Definition render (dt : Q) (s : State) : State :=
  snd (moveDolly s dt).

(** ** The event loop *)

Inductive Event :=
| EvLoaded (u : string)                      (* a pending request succeeds *)
| EvLoadError (u : string)                   (* a pending request fails *)
| EvElapse (ms : nat)                        (* time passes *)
| EvController (i : nat) (ty : EventType)    (* controller [i] emits [ty] *)
| EvHeadPose (q : Quaternion)                (* the headset turns *)
| EvFrame (dt : Q).                          (* the display asks for a frame *)

(** The first pending request for [u], and the others. *)
Fixpoint takeRequest (u : string) (l : list Request)
    : option (Request * list Request) :=
  match l with
  | [] => None
  | r :: l' =>
      if String.eqb (url r) u then Some (r, l')
      else match takeRequest u l' with
           | Some (r', rest) => Some (r', r :: rest)
           | None => None
           end
  end.

(** The first timer that is due at time [t], and the others. *)
Fixpoint takeDue (t : nat) (l : list Timer) : option (Timer * list Timer) :=
  match l with
  | [] => None
  | x :: l' =>
      if Nat.leb (due x) t then Some (x, l')
      else match takeDue t l' with
           | Some (y, rest) => Some (y, x :: rest)
           | None => None
           end
  end.

(** Run the timers that are due, one callback at a time. *)
Fixpoint runTimers (fuel : nat) (s : State) : State :=
  match fuel with
  | O => s
  | S fuel' =>
      match takeDue (now s) (timers s) with
      | Some (t, rest) => runTimers fuel' (call (handler t) None (set_timers rest s))
      | None => s
      end
  end.

(** [controller.dispatchEvent({type})]: the listeners of that type, in
    registration order, with [this] the controller. *)
Definition dispatch (i : nat) (ty : EventType) (s : State) : State :=
  match xrControllers s !! i with
  | Some c =>
      fold_left
        (fun s l => if EventType_eqb (fst l) ty then call (snd l) (Some i) s else s)
        (listeners c) s
  | None => s
  end.

(** One turn of the event loop: the host runs the callbacks the event
    concerns, each to completion.  A loader request that fails without an
    error callback is reported on the console by the loader itself; a
    rejected [fetch] without a handler runs no code of the application and
    writes nothing; an event nobody listens to changes nothing. *)
Definition step (s : State) (e : Event) : State :=
  match e with
  | EvLoaded u =>
      match takeRequest u (requests s) with
      | Some (r, rest) => call (onLoad r) None (set_requests rest s)
      | None => s
      end
  | EvLoadError u =>
      match takeRequest u (requests s) with
      | Some (r, rest) =>
          match onError r with
          | Some cb => call cb None (set_requests rest s)
          | None =>
              match transport r with
              | viaLoader => set_console (console s ++ [u]) (set_requests rest s)
              | viaFetch => set_requests rest s
              end
          end
      | None => s
      end
  | EvElapse ms =>
      let s := set_now (now s + ms) s in
      runTimers (length (timers s)) s
  | EvController i ty => dispatch i ty s
  | EvHeadPose q => set_dummyCam (set_quaternion q (dummyCam s)) s
  | EvFrame dt =>
      match animationLoop s with
      | Some renderBound => render dt s
      | None => s
      end
  end.

Definition run (tr : list Event) (s : State) : State := fold_left step tr s.

(** The states after each event of a trace. *)
Fixpoint states (tr : list Event) (s : State) : list State :=
  match tr with
  | [] => []
  | e :: tr' => step s e :: states tr' (step s e)
  end.

(** The Fallback Mode Flag as the program reads it: [this.useGaze] is
    never initialised, and [undefined] reads as false. *)
Definition fallbackFlag (s : State) : bool :=
  match useGaze s with
  | Some true => true
  | _ => false
  end.

(** Number of false-to-true transitions of a sequence of flag values. *)
Fixpoint risingEdges (prev : bool) (l : list bool) : nat :=
  match l with
  | [] => 0
  | b :: l' => (if negb prev && b then 1 else 0) + risingEdges b l'
  end.

(** ** States used to exercise the model *)

(** A rig placed at [p], with a collision proxy present: the only kind of
    state in which [moveDolly] gets past its guard. *)
Definition set_proxy (v : option Obj) (s : State) : State :=
  mkState (camera s) (dolly s) (dummyCam s) (scene s) (environment s) v
    (useGaze s) (gazeController s) (controllers s) (ui s) (boardData s)
    (now s) (nextTimeoutId s) (timers s) (requests s) (xrEnabled s)
    (xrControllers s) (inputSources s) (animationLoop s) (console s)
    (gazeInstances s).

(** The three model loads succeed in turn: the last one runs [setupXR]. *)
Definition modelsLoaded : list Event :=
  [EvLoaded model1File; EvLoaded model2File; EvLoaded model3File].

(** After setup, controller 0 connects and its trigger is held. *)
Definition selectHeld : State :=
  run (modelsLoaded ++ [EvController 0 connected; EvController 0 selectstart])
      (constructor 1).

(** After setup, 2000 ms pass without any controller connecting. *)
Definition gazeArmed : State :=
  run (modelsLoaded ++ [EvElapse 2000]) (constructor 0).

(** A rig at (-1, 0, 0) with a proxy present, the trigger of controller 0
    held and the head turned so that forward is (-24/25, 0, -7/25). *)
Definition nearWall : State :=
  let s := run [EvHeadPose (quat 0 (3 # 5) 0 (4 # 5))] selectHeld in
  set_proxy (Some (OModel 1))
    (set_dolly (set_position (vec3 (-1) 0 0) <$> dolly s) s).

(** ** Predicates of the claims *)

Definition inBounds (p : Vector3) : Prop :=
  (Qabs (vx p) <= wallLimit /\ Qabs (vz p) <= wallLimit)%Q.

Definition rigInBounds (s : State) : Prop :=
  exists d, dolly s = Some d /\ inBounds (position d).

(** What "held at the boundary" means on one axis: a target beyond a limit
    gives the limit itself, a target within the limits is reached. *)
Definition heldAxis (t x' : Q) : Prop :=
  ((wallLimit < t -> x' == wallLimit) /\
   (t < - wallLimit -> x' == - wallLimit) /\
   (- wallLimit <= t <= wallLimit -> x' == t))%Q.

(** The pose of the rig: position and orientation. *)
Definition rigPose (s : State) : option (Vector3 * Quaternion) :=
  match dolly s with
  | Some d => Some (position d, quaternion d)
  | None => None
  end.

Definition elapsed (tr : list Event) : nat :=
  fold_right (fun e n => match e with EvElapse ms => ms + n | _ => n end) 0 tr.

Definition isConnected (e : Event) : bool :=
  match e with
  | EvController _ connected => true
  | _ => false
  end.

(** No controller reports [connected] during the trace. *)
Definition noConnected (tr : list Event) : Prop :=
  Forall (fun e => isConnected e = false) tr.

(** ** The phases of a session

    The predicates below describe the states the application goes through:
    [Loading] until the third model has loaded, then [Ready] in one of three
    modes.  The proofs show that every state reached from [constructor] is
    of this form and that the modes follow [nextMode]. *)

Definition isModelCallback (cb : Callback) : bool :=
  match cb with
  | model1Loaded | model2Loaded | model3Loaded => true
  | _ => false
  end.

(** Number of pending model loads among the requests. *)
Definition modelCount (l : list Request) : nat :=
  length (List.filter (fun r => isModelCallback (onLoad r)) l).

(** The requests the application issues. *)
Definition issued (r : Request) : Prop :=
  r = mkRequest hdrFile envLoaded (Some envError) viaLoader \/
  r = mkRequest boardFile boardDataFetched None viaFetch \/
  r = mkRequest model1File model1Loaded None viaLoader \/
  r = mkRequest model2File model2Loaded None viaLoader \/
  r = mkRequest model3File model3Loaded None viaLoader.

Definition stdListeners (timeoutId : nat) : list (EventType * Callback) :=
  [(selectstart, onSelectStart); (selectend, onSelectEnd);
   (connected, onConnected timeoutId)].

(** A controller handle as [setupXR] leaves it, up to its trigger state. *)
Definition handle (pressed : bool) (timeoutId : nat) : Controller :=
  {| selectPressed := Some pressed; attached := [OLine];
     listeners := stdListeners timeoutId |}.

Definition handles (p0 p1 : bool) (timeoutId : nat) : gmap nat Controller :=
  <[1 := handle p1 timeoutId]> (<[0 := handle p0 timeoutId]> ∅).

Definition theGaze : GazeController := mkGazeController OScene ODummyCam.

Inductive Mode :=
| MArmed (due : nat)     (* the Timeout Timer is pending *)
| MCancelled             (* a controller connected in time *)
| MFallback.             (* the timer fired: gaze control *)

Definition isFallback (m : Mode) : bool :=
  match m with
  | MFallback => true
  | _ => false
  end.

Definition modeTimers (timeoutId : nat) (m : Mode) : list Timer :=
  match m with
  | MArmed due => [mkTimer timeoutId due connectionTimeout]
  | _ => []
  end.

(** The mode after an event that happens at time [t]. *)
Definition nextMode (m : Mode) (t : nat) (e : Event) : Mode :=
  match m, e with
  | MArmed due, EvController i connected => if i <? 2 then MCancelled else m
  | MArmed due, EvElapse ms => if due <=? t + ms then MFallback else m
  | _, _ => m
  end.

Definition nextNow (t : nat) (e : Event) : nat :=
  match e with
  | EvElapse ms => t + ms
  | _ => t
  end.

(** The modes after each event of a trace. *)
Fixpoint modes (tr : list Event) (m : Mode) (t : nat) : list Mode :=
  match tr with
  | [] => []
  | e :: tr' => nextMode m t e :: modes tr' (nextMode m t e) (nextNow t e)
  end.

(** The mode at the end of a trace. *)
Fixpoint finalMode (tr : list Event) (m : Mode) (t : nat) : Mode :=
  match tr with
  | [] => m
  | e :: tr' => finalMode tr' (nextMode m t e) (nextNow t e)
  end.

Definition Loading (s : State) : Prop :=
  proxy s = None /\ controllers s = None /\ timers s = [] /\
  useGaze s = None /\ gazeController s = None /\ gazeInstances s = [] /\
  xrControllers s = ∅ /\ animationLoop s = None /\ xrEnabled s = false /\
  modelCount (requests s) <= 1 /\ Forall issued (requests s).

Definition Ready (timeoutId : nat) (m : Mode) (s : State) : Prop :=
  proxy s = None /\ controllers s = Some [0; 1] /\
  timers s = modeTimers timeoutId m /\
  match m with MArmed due => now s < due | _ => True end /\
  useGaze s = (if isFallback m then Some true else None) /\
  gazeController s = (if isFallback m then Some theGaze else None) /\
  gazeInstances s = (if isFallback m then [theGaze] else []) /\
  (exists p0 p1, xrControllers s = handles p0 p1 timeoutId) /\
  animationLoop s = Some renderBound /\ xrEnabled s = true /\
  modelCount (requests s) = 0 /\ Forall issued (requests s).

(** XR setup has run: handles allocated, XR enabled, animation loop
    registered. *)
Definition setupDone (s : State) : Prop :=
  controllers s = Some [0; 1] /\ xrEnabled s = true /\
  animationLoop s = Some renderBound.

(** XR setup can still be reached from [s]. *)
Definition setupReachable (s : State) : Prop :=
  exists tr, setupDone (run tr s).

Definition hdrRequest : Request :=
  mkRequest hdrFile envLoaded (Some envError) viaLoader.
Definition model1Request : Request :=
  mkRequest model1File model1Loaded None viaLoader.
Definition model2Request : Request :=
  mkRequest model2File model2Loaded None viaLoader.
Definition model3Request : Request :=
  mkRequest model3File model3Loaded None viaLoader.
Definition boardRequest : Request :=
  mkRequest boardFile boardDataFetched None viaFetch.

(** What the console shows for a failed request: the application's own
    message for the environment map, the loader's report otherwise. *)
Definition failureLog (u : string) : string :=
  if String.eqb u hdrFile
  then "An error occurred setting the environment"
  else u.

(** ** Further vocabulary: scene contents and pending requests *)

(** The first [j] models, in load order. *)
Definition modelsIn (j : nat) : list Obj := map OModel (seq 1 j).

(** The request [loadModels] issues for model [k]. *)
Definition modelRequest (k : nat) : Request :=
  match k with
  | 1 => model1Request
  | 2 => model2Request
  | _ => model3Request
  end.

(** The pending model requests, in issue order. *)
Definition pendingModels (l : list Request) : list Request :=
  List.filter (fun r => isModelCallback (onLoad r)) l.

(** Number of pending requests for [u]. *)
Definition urlCount (u : string) (l : list Request) : nat :=
  length (List.filter (fun r => String.eqb (url r) u) l).

(** The event a trigger emits when pressed ([true]) or released. *)
Definition selectEvent (v : bool) : EventType :=
  if v then selectstart else selectend.

(** What [buildControllers] adds to its parent, in order. *)
Definition controllerNodes : list Obj :=
  [OController 0; OGrip 0; OController 1; OGrip 1].

(** The scene once setup has run. *)
Definition fullScene : list Obj :=
  [ODolly; OAmbient; OModel 1; OModel 2; OModel 3; OUiMesh].

(** The children of the rig. *)
Definition rigChildren (s : State) : option (list Obj) :=
  match dolly s with
  | Some d => Some (children d)
  | None => None
  end.

(** The shape of the scene graph in a session: while loading, the scene
    holds the first [j] models and the pending model request, if any, is
    the next one; after setup the scene is complete and the controllers
    hang from the rig. *)
Definition sceneShape (s : State) : Prop :=
  (controllers s = None /\ ui s = None /\ rigChildren s = Some [OCamera] /\
   exists j, j <= 2 /\
             scene s = [ODolly; OAmbient] ++ modelsIn j /\
             (pendingModels (requests s) = [] \/
              pendingModels (requests s) = [modelRequest (S j)])) \/
  (controllers s = Some [0; 1] /\
   ui s = Some (mkCanvasUI "name" "info" 256) /\
   rigChildren s = Some (OCamera :: controllerNodes) /\
   scene s = fullScene).

(** [l] with every element of [xs] taken out. *)
Definition withoutAll (xs l : list Obj) : list Obj :=
  List.filter (fun y => negb (existsb (Obj_eqb y) xs)) l.

(** An object, and a handle, whose children have lost the controllers and
    grips. *)
Definition unhook (o : Object3D) : Object3D :=
  set_children (withoutAll controllerNodes (children o)) o.

Definition unhookHandle (c : Controller) : Controller :=
  set_attached (withoutAll controllerNodes (attached c)) c.

(** The objects [buildControllers] moves. *)
Definition isHandle (o : Obj) : bool :=
  match o with
  | OController _ | OGrip _ => true
  | _ => false
  end.

(** [s'] differs from [s] at most in the children of the scene, the camera,
    the rig and the dummy camera, and in the controller store. *)
Definition touchesGraph (s s' : State) : Prop :=
  s' = set_xrControllers (xrControllers s')
         (set_scene (scene s')
            (set_dolly (dolly s')
               (set_dummyCam (dummyCam s') (set_camera (camera s') s)))).

(** What one pass of the loop of [buildControllers] makes of a handle: the
    object is created if it was absent; it gets one more pointer line, its
    trigger state is reset, its listeners stay. *)
Definition rebuilt (old : option Controller) : Controller :=
  let c := default newController old in
  {| selectPressed := Some false; attached := attached c ++ [OLine];
     listeners := listeners c |}.

Definition isLoadError (e : Event) : bool :=
  match e with
  | EvLoadError _ => true
  | _ => false
  end.

(** Number of failure reports in a trace. *)
Definition failures (tr : list Event) : nat :=
  length (List.filter isLoadError tr).

(** * Proofs *)

Ltac destruct_state s :=
  destruct s as [cam dol dum sc envm prx ug gc ctl u bd nw nid tms rqs xe xc
                 ins al con gi].

(** ** Properties stable under every handler hold along every trace *)

Section Preservation.
Variable P : State -> Prop.
Hypothesis P_call : forall cb this s, P s -> P (call cb this s).
Hypothesis P_requests : forall v s, P s -> P (set_requests v s).
Hypothesis P_timers : forall v s, P s -> P (set_timers v s).
Hypothesis P_now : forall v s, P s -> P (set_now v s).
Hypothesis P_console : forall v s, P s -> P (set_console v s).
Hypothesis P_dummyCam : forall v s, P s -> P (set_dummyCam v s).
Hypothesis P_render : forall dt s, P s -> P (render dt s).

Lemma runTimers_preserves fuel s : P s -> P (runTimers fuel s).
Proof using P_call P_timers.
  revert s. induction fuel as [|fuel IH]; intros s Hs; simpl; [assumption|].
  destruct (takeDue (now s) (timers s)) as [[t rest]|]; [|assumption].
  apply IH, P_call, P_timers, Hs.
Qed.

Lemma dispatch_preserves i ty s : P s -> P (dispatch i ty s).
Proof using P_call.
  unfold dispatch. destruct (xrControllers s !! i) as [c|]; [|trivial].
  generalize (listeners c). intros l. revert s.
  induction l as [|x l IH]; intros s Hs; simpl; [assumption|].
  apply IH. destruct (EventType_eqb x.1 ty); [apply P_call|]; assumption.
Qed.

Lemma step_preserves s e : P s -> P (step s e).
Proof using All.
  intros Hs. destruct e as [u|u|ms|i ty|q|dt]; simpl.
  - destruct (takeRequest u (requests s)) as [[r rest]|]; [|assumption].
    apply P_call, P_requests, Hs.
  - destruct (takeRequest u (requests s)) as [[r rest]|]; [|assumption].
    destruct (onError r).
    + apply P_call, P_requests, Hs.
    + destruct (transport r).
      * apply P_console, P_requests, Hs.
      * apply P_requests, Hs.
  - apply runTimers_preserves, P_now, Hs.
  - apply dispatch_preserves, Hs.
  - apply P_dummyCam, Hs.
  - destruct (animationLoop s) as [[]|]; [apply P_render|]; assumption.
Qed.

Lemma run_preserves tr s : P s -> P (run tr s).
Proof using All.
  revert s. induction tr as [|e tr IH]; intros s Hs; simpl; [assumption|].
  apply IH, step_preserves, Hs.
Qed.

Lemma states_preserve tr s : P s -> Forall P (states tr s).
Proof using All.
  revert s. induction tr as [|e tr IH]; intros s Hs; simpl; constructor.
  - apply step_preserves, Hs.
  - apply IH, step_preserves, Hs.
Qed.
End Preservation.

Lemma run_app tr1 tr2 s : run (tr1 ++ tr2) s = run tr2 (run tr1 s).
Proof. apply fold_left_app. Qed.

Lemma states_app tr1 tr2 s :
  states (tr1 ++ tr2) s = states tr1 s ++ states tr2 (run tr1 s).
Proof.
  revert s. induction tr1 as [|e tr1 IH]; intros s; simpl; [reflexivity|].
  now rewrite IH.
Qed.

(** ** The guard of [moveDolly] *)

Lemma moveDollyWith_guard rest s dt :
  proxy s = None -> moveDollyWith rest s dt = (Normal, s).
Proof. intros H. unfold moveDollyWith. now rewrite H. Qed.

Lemma render_guard dt s : proxy s = None -> render dt s = s.
Proof. intros H. unfold render, moveDolly. now rewrite moveDollyWith_guard. Qed.

(** No handler assigns [this.proxy]. *)
Lemma proxy_stable tr s : proxy s = None -> proxy (run tr s) = None.
Proof.
  intros H.
  refine (run_preserves (fun s => proxy s = None) _ _ _ _ _ _ _ tr s H); clear.
  - intros cb this s. destruct_state s. destruct dol, cb, this; trivial.
  - intros v s; destruct_state s; trivial.
  - intros v s; destruct_state s; trivial.
  - intros v s; destruct_state s; trivial.
  - intros v s; destruct_state s; trivial.
  - intros v s; destruct_state s; trivial.
  - intros dt s H. now rewrite render_guard.
Qed.

Lemma rigPose_stable tr s pose :
  proxy s = None /\ rigPose s = pose ->
  proxy (run tr s) = None /\ rigPose (run tr s) = pose.
Proof.
  intros H.
  refine (run_preserves (fun s => proxy s = None /\ rigPose s = pose)
            _ _ _ _ _ _ _ tr s H); clear.
  - intros cb this s. destruct_state s. destruct dol, cb, this; trivial.
  - intros v s; destruct_state s; trivial.
  - intros v s; destruct_state s; trivial.
  - intros v s; destruct_state s; trivial.
  - intros v s; destruct_state s; trivial.
  - intros v s; destruct_state s; trivial.
  - intros dt s H. rewrite render_guard; tauto.
Qed.

(** ** The boundary *)

Lemma clampAxis_bound v : (Qabs (clampAxis v) <= wallLimit)%Q.
Proof.
  apply Qabs_Qle_condition. unfold clampAxis. split.
  - apply Q.le_max_l.
  - apply Q.max_lub; [unfold wallLimit; lra | apply Q.le_min_l].
Qed.

Lemma clampAxis_held t : heldAxis t (clampAxis t).
Proof.
  unfold heldAxis, clampAxis.
  destruct (Q.max_spec (- wallLimit) (Qmin wallLimit t)) as [[H1 E1]|[H1 E1]];
    destruct (Q.min_spec wallLimit t) as [[H2 E2]|[H2 E2]];
    rewrite E1; try rewrite E2; rewrite ?E2 in H1;
    unfold wallLimit in *; repeat split; intros; lra.
Qed.

Lemma moveDolly_rest_inBounds s d pos saved dt :
  rigInBounds (snd (moveDolly_rest s d pos saved dt)).
Proof.
  destruct_state s. eexists. split; [reflexivity|].
  split; apply clampAxis_bound.
Qed.

Lemma moveDolly_inBounds s dt : rigInBounds s -> rigInBounds (snd (moveDolly s dt)).
Proof.
  intros H. unfold moveDolly, moveDollyWith.
  destruct (proxy s); [|exact H].
  destruct (dolly s) eqn:E; [|exact H].
  apply moveDolly_rest_inBounds.
Qed.

Lemma rigInBounds_step s e : rigInBounds s -> rigInBounds (step s e).
Proof.
  intros H.
  refine (step_preserves rigInBounds _ _ _ _ _ _ _ s e H); clear.
  - intros cb this s. destruct_state s.
    destruct dol, cb, this; trivial; intros (d & E & B); simpl in E;
      simplify_eq; eexists; (split; [reflexivity|exact B]).
  - intros v s; destruct_state s; trivial.
  - intros v s; destruct_state s; trivial.
  - intros v s; destruct_state s; trivial.
  - intros v s; destruct_state s; trivial.
  - intros v s; destruct_state s; trivial.
  - intros dt s. apply moveDolly_inBounds.
Qed.

(** ** Pending requests *)

Lemma takeRequest_Forall (P : Request -> Prop) u l r rest :
  takeRequest u l = Some (r, rest) -> Forall P l -> P r /\ Forall P rest.
Proof.
  revert r rest. induction l as [|x l IH]; intros r rest; simpl; [discriminate|].
  destruct (String.eqb (url x) u).
  - intros [= <- <-] H. inversion H; subst. auto.
  - destruct (takeRequest u l) as [[r' rest']|]; [|discriminate].
    intros [= <- <-] H. inversion H; subst.
    destruct (IH r' rest' eq_refl) as [? ?]; auto.
Qed.

Lemma takeRequest_modelCount u l r rest :
  takeRequest u l = Some (r, rest) ->
  modelCount l = (if isModelCallback (onLoad r) then 1 else 0) + modelCount rest.
Proof.
  unfold modelCount.
  revert r rest. induction l as [|x l IH]; intros r rest; simpl; [discriminate|].
  destruct (String.eqb (url x) u).
  - intros [= <- <-]. destruct (isModelCallback (onLoad x)); reflexivity.
  - destruct (takeRequest u l) as [[r' rest']|]; [|discriminate].
    intros [= <- <-]. specialize (IH r' rest' eq_refl). simpl.
    destruct (isModelCallback (onLoad x)), (isModelCallback (onLoad r'));
      simpl in *; lia.
Qed.

Lemma takeRequest_url u l r rest :
  takeRequest u l = Some (r, rest) -> url r = u.
Proof.
  revert r rest. induction l as [|x l IH]; intros r rest; simpl; [discriminate|].
  destruct (String.eqb (url x) u) eqn:E.
  - intros [= <- <-]. now apply String.eqb_eq.
  - destruct (takeRequest u l) as [[r' rest']|]; [|discriminate].
    intros [= <- <-]. eauto.
Qed.

Lemma modelCount_app l1 l2 : modelCount (l1 ++ l2) = modelCount l1 + modelCount l2.
Proof. unfold modelCount. now rewrite List.filter_app, length_app. Qed.

(** ** The controller store after setup *)

Lemma handles_lookup_0 p0 p1 tid : handles p0 p1 tid !! 0 = Some (handle p0 tid).
Proof. reflexivity. Qed.

Lemma handles_lookup_1 p0 p1 tid : handles p0 p1 tid !! 1 = Some (handle p1 tid).
Proof. reflexivity. Qed.

Lemma handles_lookup_ge p0 p1 tid i : handles p0 p1 tid !! S (S i) = None.
Proof. unfold handles. now rewrite !lookup_insert_ne, lookup_empty by lia. Qed.

Lemma handles_alter_0 f p0 p1 tid q :
  f (handle p0 tid) = handle q tid ->
  alter f 0 (handles p0 p1 tid) = handles q p1 tid.
Proof.
  intros H. unfold handles.
  rewrite alter_insert_ne, alter_insert_eq, H by lia. reflexivity.
Qed.

Lemma handles_alter_1 f p0 p1 tid q :
  f (handle p1 tid) = handle q tid ->
  alter f 1 (handles p0 p1 tid) = handles p0 q tid.
Proof.
  intros H. unfold handles. rewrite alter_insert_eq, H. reflexivity.
Qed.

(** ** The phases are closed under the event loop *)

Arguments setupXR : simpl never.

Ltac ready := unfold Ready; simpl; repeat split; eauto.
Ltac loading := unfold Loading; simpl; repeat split; eauto.

Lemma issued_not_model r :
  issued r -> isModelCallback (onLoad r) = false ->
  r = mkRequest hdrFile envLoaded (Some envError) viaLoader \/
  r = mkRequest boardFile boardDataFetched None viaFetch.
Proof. intros [->|[->|[->|[->| ->]]]] H; simpl in H; try discriminate; auto. Qed.

Lemma Forall_issued_snoc l r : Forall issued l -> issued r -> Forall issued (l ++ [r]).
Proof.
  intros. apply Forall_app; split; [assumption|].
  constructor; [assumption|constructor].
Qed.

(** A request taken from a list without pending model loads is the
    environment map or the board data. *)
Lemma takeRequest_benign f l r rest :
  takeRequest f l = Some (r, rest) -> Forall issued l -> modelCount l = 0 ->
  (r = mkRequest hdrFile envLoaded (Some envError) viaLoader \/
   r = mkRequest boardFile boardDataFetched None viaFetch) /\
  Forall issued rest /\ modelCount rest = 0.
Proof.
  intros T Hr Hm.
  destruct (takeRequest_Forall issued _ _ _ _ T Hr) as [Hir Hrest].
  pose proof (takeRequest_modelCount _ _ _ _ T) as Hcount.
  assert (isModelCallback (onLoad r) = false /\ modelCount rest = 0) as [Hnm Hz]
    by (destruct (isModelCallback (onLoad r)); simpl in *; split; (congruence || lia)).
  auto using issued_not_model.
Qed.

(** The controller store that [setupXR] builds from an empty one. *)
Lemma setupXR_store s :
  xrControllers s = ∅ ->
  xrControllers (setupXR s) = handles false false (nextTimeoutId s).
Proof.
  destruct_state s; simpl; intros ->. destruct dol; vm_compute; reflexivity.
Qed.

Lemma setupXR_Ready s :
  proxy s = None -> timers s = [] -> useGaze s = None -> gazeController s = None ->
  gazeInstances s = [] -> xrControllers s = ∅ ->
  modelCount (requests s) = 0 -> Forall issued (requests s) ->
  Ready (nextTimeoutId s) (MArmed (now s + 2000)) (setupXR s) /\
  now (setupXR s) = now s.
Proof.
  intros Hp Ht Hu Hg Hi Hx Hm Hr.
  pose proof (setupXR_store s Hx) as Hs.
  destruct_state s; simpl in Hp, Ht, Hu, Hg, Hi, Hx, Hm, Hr; subst.
  unfold Ready.
  destruct dol; (repeat split; try reflexivity; try assumption;
    [simpl; lia | exists false, false; exact Hs]).
Qed.

(** The modes of a session follow [nextMode]. *)
Lemma step_Ready tid m s e :
  Ready tid m s ->
  Ready tid (nextMode m (now s) e) (step s e) /\
  now (step s e) = nextNow (now s) e.
Proof.
  intros (Hp & Hc & Ht & Hn & Hu & Hg & Hi & (p0 & p1 & Hx) & Ha & He & Hm & Hr).
  destruct_state s; simpl in *; subst.
  destruct e as [f|f|ms|i ty|q|dt].
  - replace (nextMode m nw (EvLoaded f)) with m by (destruct m; reflexivity).
    cbn [step requests nextNow].
    destruct (takeRequest f rqs) as [[r rest]|] eqn:T; [|split; [ready|reflexivity]].
    destruct (takeRequest_benign _ _ _ _ T Hr Hm) as ([-> | ->] & Hrest & Hz);
      simpl; split; ready.
  - replace (nextMode m nw (EvLoadError f)) with m by (destruct m; reflexivity).
    cbn [step requests nextNow].
    destruct (takeRequest f rqs) as [[r rest]|] eqn:T; [|split; [ready|reflexivity]].
    destruct (takeRequest_benign _ _ _ _ T Hr Hm) as ([-> | ->] & Hrest & Hz);
      simpl; split; ready.
  - destruct m as [due| |]; simpl.
    + destruct (due <=? nw + ms) eqn:E; simpl; split; ready.
      apply Nat.leb_gt in E. exact E.
    + split; ready.
    + split; ready.
  - unfold step, dispatch. simpl xrControllers.
    destruct i as [|[|i]].
    + rewrite handles_lookup_0.
      destruct ty, m; simpl; rewrite ?Nat.eqb_refl; simpl; split; try reflexivity.
      all: unfold Ready; simpl; repeat split; eauto.
      all: try (eexists _, _; apply handles_alter_0; reflexivity).
      all: now rewrite Nat.eqb_refl.
    + rewrite handles_lookup_1.
      destruct ty, m; simpl; rewrite ?Nat.eqb_refl; simpl; split; try reflexivity.
      all: unfold Ready; simpl; repeat split; eauto.
      all: try (eexists _, _; apply handles_alter_1; reflexivity).
      all: now rewrite Nat.eqb_refl.
    + rewrite handles_lookup_ge.
      replace (nextMode m nw (EvController (S (S i)) ty)) with m
        by (destruct m, ty; reflexivity).
      split; ready.
  - replace (nextMode m nw (EvHeadPose q)) with m by (destruct m; reflexivity).
    split; ready.
  - replace (nextMode m nw (EvFrame dt)) with m by (destruct m; reflexivity).
    split; ready.
Qed.

(** While loading, an event either leaves the session loading or is the
    third model's arrival, which arms the timer for 2000 ms. *)
Lemma step_Loading s e :
  Loading s ->
  now (step s e) = nextNow (now s) e /\
  (Loading (step s e) \/
   exists tid, Ready tid (MArmed (now (step s e) + 2000)) (step s e) /\
               xrControllers (step s e) = handles false false tid).
Proof.
  intros (Hp & Hc & Ht & Hu & Hg & Hi & Hx & Ha & He & Hm & Hr).
  destruct_state s; simpl in *; subst.
  destruct e as [f|f|ms|i ty|q|dt].
  - cbn [step requests nextNow].
    destruct (takeRequest f rqs) as [[r rest]|] eqn:T;
      [|split; [reflexivity|left; loading]].
    destruct (takeRequest_Forall issued _ _ _ _ T Hr) as [Hir Hrest].
    pose proof (takeRequest_modelCount _ _ _ _ T) as Hcount.
    destruct Hir as [->|[->|[->|[->| ->]]]]; cbn [onLoad call]; simpl in Hcount.
    + split; [reflexivity|left; loading]. lia.
    + split; [reflexivity|left; loading]. lia.
    + split; [reflexivity|left; loading].
      * rewrite modelCount_app. simpl. unfold modelCount at 2. simpl. lia.
      * apply Forall_issued_snoc; unfold issued; auto.
    + split; [reflexivity|left; loading].
      * rewrite modelCount_app. simpl. unfold modelCount at 2. simpl. lia.
      * apply Forall_issued_snoc; unfold issued; auto 6.
    + match goal with |- context [setupXR ?x] =>
        destruct (setupXR_Ready x) as [HR HN]; try reflexivity; try assumption;
        [simpl; lia|]; pose proof (setupXR_store x eq_refl) as HS end.
      cbn [nextTimeoutId now set_scene set_requests] in HR, HN, HS.
      rewrite HN.
      split; [reflexivity|right; exists nid; split; [exact HR|exact HS]].
  - simpl. destruct (takeRequest f rqs) as [[r rest]|] eqn:T;
      [|split; [reflexivity|left; loading]].
    destruct (takeRequest_Forall issued _ _ _ _ T Hr) as [Hir Hrest].
    pose proof (takeRequest_modelCount _ _ _ _ T) as Hcount.
    destruct Hir as [->|[->|[->|[->| ->]]]]; simpl in *;
      (split; [reflexivity|left; loading]); lia.
  - simpl. split; [reflexivity|left; loading].
  - unfold step, dispatch. simpl. rewrite lookup_empty.
    split; [reflexivity|left; loading].
  - simpl; split; [reflexivity|left; loading].
  - simpl; split; [reflexivity|left; loading].
Qed.

(** Once no model load is pending while loading, none ever is again. *)
Lemma step_stuck s e :
  Loading s /\ modelCount (requests s) = 0 ->
  Loading (step s e) /\ modelCount (requests (step s e)) = 0.
Proof.
  intros [(Hp & Hc & Ht & Hu & Hg & Hi & Hx & Ha & He & Hm & Hr) Hz].
  destruct_state s; simpl in *; subst.
  destruct e as [f|f|ms|i ty|q|dt].
  - cbn [step requests].
    destruct (takeRequest f rqs) as [[r rest]|] eqn:T; [|split; [loading|assumption]].
    destruct (takeRequest_benign _ _ _ _ T Hr Hz) as ([-> | ->] & Hrest & Hz');
      simpl; (split; [loading; lia|assumption]).
  - cbn [step requests].
    destruct (takeRequest f rqs) as [[r rest]|] eqn:T; [|split; [loading|assumption]].
    destruct (takeRequest_benign _ _ _ _ T Hr Hz) as ([-> | ->] & Hrest & Hz');
      simpl; (split; [loading; lia|assumption]).
  - simpl. split; [loading|assumption].
  - unfold step, dispatch. simpl. rewrite lookup_empty. split; [loading|assumption].
  - simpl. split; [loading|assumption].
  - simpl. split; [loading|assumption].
Qed.

(** ** Sessions *)

Lemma Ready_flag tid m s : Ready tid m s -> fallbackFlag s = isFallback m.
Proof.
  intros (_ & _ & _ & _ & Hu & _). unfold fallbackFlag. rewrite Hu.
  now destruct m.
Qed.

Lemma Loading_flag s : Loading s -> fallbackFlag s = false.
Proof. intros (_ & _ & _ & Hu & _). unfold fallbackFlag. now rewrite Hu. Qed.

Lemma constructor_Loading n :
  Loading (constructor n) /\ modelCount (requests (constructor n)) = 1.
Proof.
  split; [|reflexivity]. unfold Loading. repeat split; try reflexivity.
  simpl. repeat (apply List.Forall_cons; [unfold issued; auto 6|]).
  apply List.Forall_nil.
Qed.

Lemma run_Ready tr tid m s :
  Ready tid m s -> Ready tid (finalMode tr m (now s)) (run tr s).
Proof.
  revert m s. induction tr as [|e tr IH]; intros m s H; simpl; [assumption|].
  destruct (step_Ready tid m s e H) as [H' <-]. now apply IH.
Qed.

Lemma states_Ready tr tid m s :
  Ready tid m s ->
  Forall2 (Ready tid) (modes tr m (now s)) (states tr s).
Proof.
  revert m s. induction tr as [|e tr IH]; intros m s H; simpl; constructor.
  - apply step_Ready, H.
  - destruct (step_Ready tid m s e H) as [H' <-]. now apply IH.
Qed.

Lemma flags_Ready tr tid m s :
  Ready tid m s ->
  map fallbackFlag (states tr s) = map isFallback (modes tr m (now s)).
Proof.
  intros H. pose proof (states_Ready tr tid m s H) as F.
  induction F as [|m' x ms xs Hx _ IH]; simpl; [reflexivity|].
  now rewrite IH, (Ready_flag _ _ _ Hx).
Qed.

(** Every state of a session is loading or ready. *)
Lemma run_phase tr s :
  Loading s \/ (exists tid m, Ready tid m s) ->
  Loading (run tr s) \/ (exists tid m, Ready tid m (run tr s)).
Proof.
  revert s. induction tr as [|e tr IH]; intros s H; simpl; [assumption|].
  apply IH. destruct H as [H|(tid & m & H)].
  - destruct (step_Loading s e H) as [_ [L|(tid & R & _)]]; eauto.
  - right. exists tid, (nextMode m (now s) e). apply step_Ready, H.
Qed.

Lemma session_phase n tr :
  Loading (run tr (constructor n)) \/
  (exists tid m, Ready tid m (run tr (constructor n))).
Proof. apply run_phase. left. apply constructor_Loading. Qed.

Lemma Ready_controllers tid m s : Ready tid m s -> controllers s = Some [0; 1].
Proof. now intros (_ & H & _). Qed.

Lemma session_unset n tr :
  controllers (run tr (constructor n)) = None -> Loading (run tr (constructor n)).
Proof.
  intros H. destruct (session_phase n tr) as [L|(tid & m & R)]; [assumption|].
  rewrite (Ready_controllers _ _ _ R) in H. discriminate.
Qed.

Lemma session_pending n tr :
  timers (run tr (constructor n)) <> [] ->
  exists tid due, Ready tid (MArmed due) (run tr (constructor n)).
Proof.
  intros H. destruct (session_phase n tr) as [L|(tid & m & R)].
  - destruct L as (_ & _ & Ht & _). contradiction.
  - destruct m as [due| |]; [eauto| |];
      destruct R as (_ & _ & Ht & _); simpl in Ht; contradiction.
Qed.

(** ** The flag only rises *)

Lemma fallbackFlag_step s e : fallbackFlag s = true -> fallbackFlag (step s e) = true.
Proof.
  intros H.
  refine (step_preserves (fun s => fallbackFlag s = true) _ _ _ _ _ _ _ s e H); clear.
  - intros cb this s. destruct_state s. destruct dol, cb, this; trivial.
  - intros v s; destruct_state s; trivial.
  - intros v s; destruct_state s; trivial.
  - intros v s; destruct_state s; trivial.
  - intros v s; destruct_state s; trivial.
  - intros v s; destruct_state s; trivial.
  - intros dt s. destruct_state s. unfold render, moveDolly, moveDollyWith.
    simpl. destruct prx, dol; trivial.
Qed.

Lemma fallbackFlag_run tr s : fallbackFlag s = true -> fallbackFlag (run tr s) = true.
Proof.
  revert s. induction tr as [|e tr IH]; intros s H; simpl; [assumption|].
  apply IH, fallbackFlag_step, H.
Qed.

Lemma flags_before tr s :
  fallbackFlag (run tr s) = false ->
  Forall (fun b => b = false) (map fallbackFlag (states tr s)).
Proof.
  revert s. induction tr as [|e tr IH]; intros s H; simpl; constructor.
  - destruct (fallbackFlag (step s e)) eqn:E; [|reflexivity].
    simpl in H. now rewrite (fallbackFlag_run tr _ E) in H.
  - apply IH, H.
Qed.

Lemma risingEdges_quiet l1 l2 :
  Forall (fun b => b = false) l1 ->
  risingEdges false (l1 ++ l2) = risingEdges false l2.
Proof. induction 1 as [|b l1 -> _ IH]; simpl; [reflexivity|exact IH]. Qed.

Lemma states_cons_app pre e tr s :
  states (pre ++ e :: tr) s =
  states pre s ++ step (run pre s) e :: states tr (step (run pre s) e).
Proof. now rewrite states_app. Qed.

(** ** The mode machine *)

Lemma modes_fallback tr t :
  risingEdges true (map isFallback (modes tr MFallback t)) = 0 /\
  finalMode tr MFallback t = MFallback.
Proof.
  revert t. induction tr as [|e tr IH]; intros t; simpl; [auto|]. apply IH.
Qed.

Lemma modes_cancelled tr t :
  Forall (fun m => m = MCancelled) (modes tr MCancelled t).
Proof.
  revert t. induction tr as [|e tr IH]; intros t; simpl; constructor; auto.
Qed.

Lemma modes_timeout w post due t :
  noConnected w -> t < due -> due <= t + elapsed w ->
  risingEdges false (map isFallback (modes (w ++ post) (MArmed due) t)) = 1 /\
  finalMode (w ++ post) (MArmed due) t = MFallback.
Proof.
  intros Hw. revert t. induction Hw as [|e w He Hw IH]; intros t Hlt Hge.
  - simpl in Hge. lia.
  - destruct e as [f|f|ms|i ty|q|dt]; simpl in *; try (apply IH; assumption).
    + destruct (due <=? t + ms) eqn:E.
      * simpl. destruct (modes_fallback (w ++ post) (t + ms)) as [-> ->]. auto.
      * apply Nat.leb_gt in E. simpl. apply IH; lia.
    + destruct ty; try discriminate; apply IH; assumption.
Qed.

(** ** Handlers of a wired controller *)

Lemma handles_dom p0 p1 tid : dom (handles p0 p1 tid) = {[0; 1]}.
Proof. unfold handles. rewrite !dom_insert_L, dom_empty_L. set_solver. Qed.

Lemma handles_lookup_lt p0 p1 tid i :
  i < 2 ->
  exists c, handles p0 p1 tid !! i = Some c /\ listeners c = stdListeners tid.
Proof.
  intros H. destruct i as [|[|i]]; [| |lia].
  - rewrite handles_lookup_0. eauto.
  - rewrite handles_lookup_1. eauto.
Qed.

Lemma isPressed_handles s p0 p1 tid j :
  xrControllers s = handles p0 p1 tid ->
  isPressed s j = match j with 0 => p0 | 1 => p1 | _ => false end.
Proof.
  intros H. unfold isPressed. rewrite H. destruct j as [|[|j]].
  - rewrite handles_lookup_0. now destruct p0.
  - rewrite handles_lookup_1. now destruct p1.
  - now rewrite handles_lookup_ge.
Qed.

(** What the two trigger handlers do to the controller store. *)
Lemma Ready_select tid m s i :
  Ready tid m s -> i < 2 ->
  exists p0 p1,
    xrControllers s = handles p0 p1 tid /\
    forall v : bool,
      xrControllers (step s (EvController i (if v then selectstart else selectend))) =
        match i with
        | 0 => handles v p1 tid
        | _ => handles p0 v tid
        end.
Proof.
  intros (Hp & Hc & Ht & Hn & Hu & Hg & Hi & (p0 & p1 & Hx) & Ha & He & Hm & Hr) Hlt.
  exists p0, p1. split; [assumption|]. intros v.
  destruct_state s; simpl in *; subst.
  unfold step, dispatch. simpl xrControllers.
  destruct i as [|[|i]]; [| |lia].
  - rewrite handles_lookup_0. destruct v; simpl; now apply handles_alter_0.
  - rewrite handles_lookup_1. destruct v; simpl; now apply handles_alter_1.
Qed.

Lemma Forall2_Forall_l {A B} (P : A -> Prop) (R : A -> B -> Prop) (Q : B -> Prop)
    (la : list A) (lb : list B) :
  (forall a b, P a -> R a b -> Q b) ->
  Forall2 R la lb -> Forall P la -> Forall Q lb.
Proof.
  intros H F. induction F as [|a b la lb Hab _ IH]; intros Hl; constructor;
    inversion Hl; subst; eauto.
Qed.

Lemma Forall_of_map {A B} (f : A -> B) (P : B -> Prop) (l : list A) :
  Forall P (map f l) -> Forall (fun x => P (f x)) l.
Proof.
  induction l as [|x l IH]; simpl; intros H; constructor; inversion H; subst; auto.
Qed.

(** ** Load failures *)

Lemma Ready_setupDone tid m s : Ready tid m s -> setupDone s.
Proof.
  intros (_ & Hc & _ & _ & _ & _ & _ & _ & Ha & He & _). now repeat split.
Qed.

Lemma stuck_forever tr s :
  Loading s /\ modelCount (requests s) = 0 ->
  Loading (run tr s) /\ modelCount (requests (run tr s)) = 0.
Proof.
  revert s. induction tr as [|e tr IH]; intros s H; simpl; [assumption|].
  apply IH, step_stuck, H.
Qed.

Lemma stuck_not_setupReachable s :
  Loading s -> modelCount (requests s) = 0 -> ~ setupReachable s.
Proof.
  intros L Hz (tr & Hc & _).
  destruct (stuck_forever tr s (conj L Hz)) as [(_ & Hc' & _) _]. congruence.
Qed.

Lemma session_issued n tr : Forall issued (requests (run tr (constructor n))).
Proof.
  destruct (session_phase n tr) as [L|(tid & m & R)].
  - apply L.
  - apply R.
Qed.

(** The effect of a failed loader request: a console line and the request
    retired. *)
Lemma loadError_effect s u r rest :
  Forall issued (requests s) ->
  takeRequest u (requests s) = Some (r, rest) ->
  transport r = viaLoader ->
  step s (EvLoadError u) =
  set_console (console s ++ [failureLog u]) (set_requests rest s).
Proof.
  intros Hr T Hv. unfold step. rewrite T.
  pose proof (takeRequest_url _ _ _ _ T) as <-.
  destruct (takeRequest_Forall issued _ _ _ _ T Hr) as [Hir _].
  destruct Hir as [->|[->|[->|[->| ->]]]]; try discriminate; reflexivity.
Qed.

(** The effect of a rejected fetch: the request is retired, nothing else. *)
Lemma fetchError_effect s u r rest :
  Forall issued (requests s) ->
  takeRequest u (requests s) = Some (r, rest) ->
  transport r = viaFetch ->
  step s (EvLoadError u) = set_requests rest s.
Proof.
  intros Hr T Hv. unfold step. rewrite T.
  destruct (takeRequest_Forall issued _ _ _ _ T Hr) as [Hir _].
  destruct Hir as [->|[->|[->|[->| ->]]]]; try discriminate; reflexivity.
Qed.

Lemma takeRequest_snoc_fresh rest r :
  Forall issued rest -> modelCount rest = 0 ->
  issued r -> isModelCallback (onLoad r) = true ->
  takeRequest (url r) (rest ++ [r]) = Some (r, rest).
Proof.
  intros Hrest Hz Hr Hm. induction Hrest as [|x rest Hx _ IH]; simpl.
  - now rewrite String.eqb_refl.
  - unfold modelCount in Hz, IH. simpl in Hz.
    destruct (isModelCallback (onLoad x)) eqn:E; [discriminate|].
    rewrite (IH Hz).
    destruct (issued_not_model x Hx E) as [-> | ->];
      destruct Hr as [->|[->|[->|[->| ->]]]]; try discriminate; reflexivity.
Qed.

Lemma find_model l :
  Forall issued l -> modelCount l = 1 ->
  exists r rest, issued r /\ isModelCallback (onLoad r) = true /\
                 takeRequest (url r) l = Some (r, rest) /\
                 Forall issued rest /\ modelCount rest = 0.
Proof.
  intros Hl. induction Hl as [|x l Hx Hl IH]; intros Hc; [discriminate|].
  unfold modelCount in Hc, IH. simpl in Hc.
  destruct (isModelCallback (onLoad x)) eqn:E.
  - exists x, l. simpl. rewrite String.eqb_refl.
    repeat split; try assumption. simpl in Hc. unfold modelCount. lia.
  - destruct (IH Hc) as (r & rest & Hr & Hm & T & Hrest & Hz).
    exists r, (x :: rest). simpl. rewrite T.
    repeat split; try assumption.
    + destruct (issued_not_model x Hx E) as [-> | ->];
        destruct Hr as [->|[->|[->|[->| ->]]]]; try discriminate; reflexivity.
    + now constructor.
    + unfold modelCount in *. simpl. now rewrite E.
Qed.

Lemma step_model3 s rest :
  Loading s ->
  takeRequest model3File (requests s) = Some (model3Request, rest) ->
  setupDone (step s (EvLoaded model3File)).
Proof.
  intros L T.
  destruct (step_Loading s (EvLoaded model3File) L) as [_ [L'|(tid & R & _)]].
  - exfalso. destruct L' as (_ & Hc & _). revert Hc.
    unfold step. rewrite T. cbn [onLoad model3Request call].
    destruct_state s. destruct dol; discriminate.
  - eapply Ready_setupDone, R.
Qed.

Lemma requests_model1 s rest :
  takeRequest model1File (requests s) = Some (model1Request, rest) ->
  requests (step s (EvLoaded model1File)) = rest ++ [model2Request].
Proof. intros T. unfold step. rewrite T. now destruct_state s. Qed.

Lemma requests_model2 s rest :
  takeRequest model2File (requests s) = Some (model2Request, rest) ->
  requests (step s (EvLoaded model2File)) = rest ++ [model3Request].
Proof. intros T. unfold step. rewrite T. now destruct_state s. Qed.

Lemma Loading_after s e : Loading s -> Loading (step s e) \/ setupDone (step s e).
Proof.
  intros L. destruct (step_Loading s e L) as [_ [L'|(tid & R & _)]]; [now left|right].
  eapply Ready_setupDone, R.
Qed.

Lemma progress3 s rest :
  Loading s ->
  takeRequest model3File (requests s) = Some (model3Request, rest) ->
  setupReachable s.
Proof.
  intros L T. exists [EvLoaded model3File]. simpl. eapply step_model3; eassumption.
Qed.

Lemma progress2 s rest :
  Loading s -> Forall issued rest -> modelCount rest = 0 ->
  takeRequest model2File (requests s) = Some (model2Request, rest) ->
  setupReachable s.
Proof.
  intros L Hrest Hz T.
  destruct (Loading_after s (EvLoaded model2File) L) as [L'|D].
  - destruct (progress3 (step s (EvLoaded model2File)) rest L') as [tr D].
    + rewrite (requests_model2 _ _ T).
      apply (takeRequest_snoc_fresh rest model3Request); unfold issued; auto 6.
    + exists (EvLoaded model2File :: tr). exact D.
  - exists [EvLoaded model2File]. exact D.
Qed.

Lemma progress1 s rest :
  Loading s -> Forall issued rest -> modelCount rest = 0 ->
  takeRequest model1File (requests s) = Some (model1Request, rest) ->
  setupReachable s.
Proof.
  intros L Hrest Hz T.
  destruct (Loading_after s (EvLoaded model1File) L) as [L'|D].
  - destruct (progress2 (step s (EvLoaded model1File)) rest L' Hrest Hz) as [tr D].
    + rewrite (requests_model1 _ _ T).
      apply (takeRequest_snoc_fresh rest model2Request); unfold issued; auto 6.
    + exists (EvLoaded model1File :: tr). exact D.
  - exists [EvLoaded model1File]. exact D.
Qed.

(** While a model load is pending, setup can be reached. *)
Lemma progress s :
  Loading s -> modelCount (requests s) = 1 -> setupReachable s.
Proof.
  intros L Hc. pose proof L as (_ & _ & _ & _ & _ & _ & _ & _ & _ & _ & Hr).
  destruct (find_model _ Hr Hc) as (r & rest & Hir & Hm & T & Hrest & Hz).
  destruct Hir as [->|[->|[->|[->| ->]]]]; try discriminate.
  - eapply progress1; eassumption.
  - eapply progress2; eassumption.
  - eapply progress3; eassumption.
Qed.

(** * The claims *)

(** ** Per-frame update *)

(** C10: the position given to the dolly at construction is (0, 0, 10); its
    z coordinate has absolute value 10, above the boundary limit 1.3, so the
    starting state of the program is outside the horizontal bounds. *)
Theorem constructor_rig_outside_bounds (n : nat) :
  exists d, dolly (constructor n) = Some d /\
            position d = vec3 0 0 10 /\
            (wallLimit < Qabs (vz (position d)))%Q /\
            ~ rigInBounds (constructor n).
Proof.
  eexists; split; [reflexivity|]. split; [reflexivity|]. split; [reflexivity|].
  intros (d & E & _ & Hz). injection E as <-.
  apply Qle_not_lt in Hz. apply Hz. reflexivity.
Qed.



(** C9: nothing assigns [this.proxy]; in every state of every session the
    proxy is undefined, [moveDolly] returns at its guard with the state
    unchanged, a frame changes nothing, and the rig still has the position
    and orientation it was constructed with. *)
Theorem moveDolly_never_moves
    (rest : State -> Object3D -> Vector3 -> Quaternion -> Q -> Completion * State)
    (n : nat) (tr : list Event) (dt : Q) :
  let s := run tr (constructor n) in
  proxy s = None /\
  moveDollyWith rest s dt = (Normal, s) /\
  step s (EvFrame dt) = s /\
  rigPose s = Some (vec3 0 0 10, quat 0 0 0 1).
Proof.
  intros s.
  destruct (rigPose_stable tr (constructor n) (Some (vec3 0 0 10, quat 0 0 0 1)))
    as [Hp Hr]; [split; reflexivity|].
  fold s in Hp, Hr. repeat split; try assumption.
  - now apply moveDollyWith_guard.
  - simpl. destruct (animationLoop s) as [[]|]; [|reflexivity].
    now apply render_guard.
Qed.

(** C2, evaluated on the code: after setup, with controller 0 connected and
    its trigger held, a frame of 0.1 s leaves the rig where it was; the
    forward displacement is 0, not 0.2. *)
Theorem select_held_frame_does_not_move :
  anySelectPressed selectHeld = true /\
  animationLoop selectHeld = Some renderBound /\
  (0 < 0.1)%Q /\
  rigPose selectHeld = Some (vec3 0 0 10, quat 0 0 0 1) /\
  moveDolly selectHeld 0.1 = (Normal, selectHeld) /\
  step selectHeld (EvFrame 0.1) = selectHeld.
Proof.
  assert (proxy selectHeld = None) as Hp by (apply proxy_stable; reflexivity).
  assert (animationLoop selectHeld = Some renderBound) as Ha
    by (vm_compute; reflexivity).
  split; [vm_compute; reflexivity|]. split; [exact Ha|].
  split; [reflexivity|]. split; [vm_compute; reflexivity|].
  split; [now apply moveDollyWith_guard|].
  unfold step. rewrite Ha. now apply render_guard.
Qed.

(** C1: from a horizontal position within bounds, the rig satisfies
    |x| <= 1.3 and |z| <= 1.3 after every event of every trace (frames
    interleaved with any other events) and after a single update; and when
    an update gets past the guard, each horizontal coordinate is held: a
    target beyond a limit gives exactly that limit (not a reflected value),
    a target within the limits is reached. *)
Theorem rig_held_within_wallLimit (s : State) (tr : list Event) (dt : Q) :
  rigInBounds s ->
  Forall rigInBounds (states tr s) /\
  rigInBounds (snd (moveDolly s dt)) /\
  (forall p d, proxy s = Some p -> dolly s = Some d ->
     exists d', dolly (snd (moveDolly s dt)) = Some d' /\
                heldAxis (vx (target s d dt)) (vx (position d')) /\
                heldAxis (vz (target s d dt)) (vz (position d'))).
Proof.
  intros H. split; [|split].
  - revert s H. induction tr as [|e tr IH]; intros s H; simpl; constructor.
    + now apply rigInBounds_step.
    + now apply IH, rigInBounds_step.
  - now apply moveDolly_inBounds.
  - intros p d Hp Hd. unfold moveDolly, moveDollyWith. rewrite Hp, Hd.
    destruct_state s. eexists. split; [reflexivity|].
    split; apply clampAxis_held.
Qed.

Lemma rig_held_within_wallLimit_witness :
  rigInBounds nearWall /\
  Forall rigInBounds (states [EvFrame 0.5; EvFrame 0.5] nearWall) /\
  rigInBounds (snd (moveDolly nearWall 0.5)) /\
  exists d d', dolly nearWall = Some d /\
               dolly (snd (moveDolly nearWall 0.5)) = Some d' /\
               heldAxis (vx (target nearWall d 0.5)) (vx (position d')) /\
               heldAxis (vz (target nearWall d 0.5)) (vz (position d')).
Proof.
  assert (rigInBounds nearWall) as H.
  { eexists. split; [vm_compute; reflexivity|].
    split; vm_compute; discriminate. }
  assert (proxy nearWall = Some (OModel 1)) as Hp by (vm_compute; reflexivity).
  assert (exists d, dolly nearWall = Some d) as [d Hd]
    by (eexists; vm_compute; reflexivity).
  destruct (rig_held_within_wallLimit nearWall [EvFrame 0.5; EvFrame 0.5] 0.5 H)
    as (H1 & H2 & H3).
  destruct (H3 _ _ Hp Hd) as (d' & Hd' & Hx & Hz).
  split; [exact H|]. split; [exact H1|]. split; [exact H2|].
  exists d, d'. auto.
Defined.

(** The update of [nearWall] by 0.5 s aims at x = -1.96 and stops at -1.3. *)
Example nearWall_frame :
  exists d d', dolly nearWall = Some d /\
               dolly (snd (moveDolly nearWall 0.5)) = Some d' /\
               (vx (target nearWall d 0.5) == -1.96)%Q /\
               (vx (position d') == -1.3)%Q /\
               (vz (position d') == -0.28)%Q.
Proof.
  eexists. eexists. split; [vm_compute; reflexivity|].
  split; [vm_compute; reflexivity|].
  repeat split; vm_compute; reflexivity.
Qed.

(** ** Fallback-input state machine *)

(** C5: once the Fallback Mode Flag is true, it is true and the gaze
    controller is in place after every later event, a controller's
    [connected] included. *)
Theorem fallback_flag_write_once (s : State) (tr : list Event) :
  fallbackFlag s = true -> is_Some (gazeController s) ->
  Forall (fun x => fallbackFlag x = true /\ is_Some (gazeController x))
         (states tr s).
Proof.
  intros Hf Hg.
  refine (states_preserve
            (fun x => fallbackFlag x = true /\ is_Some (gazeController x))
            _ _ _ _ _ _ _ tr s (conj Hf Hg)); clear.
  - intros cb this s. destruct_state s.
    destruct dol, cb, this; trivial; intros _;
      (split; [reflexivity|eexists; reflexivity]).
  - intros v s; destruct_state s; trivial.
  - intros v s; destruct_state s; trivial.
  - intros v s; destruct_state s; trivial.
  - intros v s; destruct_state s; trivial.
  - intros v s; destruct_state s; trivial.
  - intros dt s. destruct_state s. unfold render, moveDolly, moveDollyWith.
    simpl. destruct prx, dol; trivial.
Qed.

Lemma fallback_flag_write_once_witness :
  fallbackFlag gazeArmed = true /\ is_Some (gazeController gazeArmed) /\
  Forall (fun x => fallbackFlag x = true /\ is_Some (gazeController x))
         (states [EvController 0 connected; EvController 0 disconnected;
                  EvElapse 5000] gazeArmed).
Proof.
  split; [vm_compute; reflexivity|].
  split; [eexists; vm_compute; reflexivity|].
  apply fallback_flag_write_once; [vm_compute; reflexivity|].
  eexists; vm_compute; reflexivity.
Defined.

(** C3: the Timeout Timer armed by setup is due 2000 ms later; if no
    controller reports [connected] during a stretch of the session after
    setup in which at least 2000 ms pass, then over the whole session,
    whatever happens afterwards, the Fallback Mode Flag goes from false to
    true exactly once, it ends true, and exactly one GazeController has been
    constructed, on the scene and the head-tracking frame [dummyCam]. *)
Theorem fallback_after_timeout (n : nat) (pre : list Event) (e : Event)
    (w post : list Event) :
  let boot := constructor n in
  let s0 := run pre boot in
  let s1 := step s0 e in
  let session := pre ++ e :: w ++ post in
  controllers s0 = None -> controllers s1 <> None ->
  noConnected w -> 2000 <= elapsed w ->
  (exists tid, timers s1 = [mkTimer tid (now s1 + 2000) connectionTimeout]) /\
  fallbackFlag boot = false /\
  risingEdges false (map fallbackFlag (states session boot)) = 1 /\
  fallbackFlag (run session boot) = true /\
  gazeInstances (run session boot) = [mkGazeController OScene ODummyCam] /\
  gazeController (run session boot) = Some (mkGazeController OScene ODummyCam).
Proof.
  intros boot s0 s1 session H0 H1 Hw He.
  pose proof (session_unset n pre H0) as L0. fold boot s0 in L0.
  destruct (step_Loading s0 e L0) as [_ [L1|(tid & R1 & _)]].
  { destruct L1 as (_ & Hc & _). contradiction. }
  fold s1 in R1.
  split; [exists tid; apply R1|]. split; [reflexivity|].
  destruct (modes_timeout w post (now s1 + 2000) (now s1) Hw) as [Hedges Hfinal];
    [lia|lia|].
  split; [|].
  - unfold session. rewrite states_cons_app, map_app. fold s0 s1.
    rewrite risingEdges_quiet
      by (apply flags_before; fold s0; now apply Loading_flag).
    simpl. rewrite (Ready_flag _ _ _ R1). simpl.
    now rewrite (flags_Ready _ _ _ _ R1).
  - assert (run session boot = run (w ++ post) s1) as ->
      by (unfold session; now rewrite run_app).
    pose proof (run_Ready (w ++ post) _ _ _ R1) as R. rewrite Hfinal in R.
    destruct R as (_ & _ & _ & _ & Hu & Hg & Hi & _). simpl in Hu, Hg, Hi.
    unfold fallbackFlag. rewrite Hu, Hg, Hi. auto.
Qed.

Lemma fallback_after_timeout_witness :
  let boot := constructor 0 in
  let pre := [EvLoaded model1File; EvLoaded model2File] in
  let e := EvLoaded model3File in
  let w := [EvElapse 1200; EvController 0 selectstart; EvElapse 800] in
  let post := [EvController 0 connected; EvElapse 3000] in
  let session := pre ++ e :: w ++ post in
  (controllers (run pre boot) = None /\
   controllers (step (run pre boot) e) <> None /\
   noConnected w /\ 2000 <= elapsed w) /\
  risingEdges false (map fallbackFlag (states session boot)) = 1 /\
  gazeInstances (run session boot) = [mkGazeController OScene ODummyCam].
Proof.
  assert (controllers (run [EvLoaded model1File; EvLoaded model2File]
                           (constructor 0)) = None) as H0
    by (vm_compute; reflexivity).
  assert (controllers (step (run [EvLoaded model1File; EvLoaded model2File]
                                 (constructor 0)) (EvLoaded model3File)) <> None)
    as H1 by (vm_compute; discriminate).
  assert (noConnected [EvElapse 1200; EvController 0 selectstart; EvElapse 800])
    as Hw by (repeat constructor).
  assert (2000 <= elapsed [EvElapse 1200; EvController 0 selectstart; EvElapse 800])
    as He by (simpl; lia).
  pose proof (fallback_after_timeout 0 _ _ _
                [EvController 0 connected; EvElapse 3000] H0 H1 Hw He)
    as (_ & _ & Hedges & _ & Hinst & _).
  split; [repeat split; assumption|]. split; [exact Hedges|exact Hinst].
Defined.

(** C4: if a controller handle reports [connected] while the Timeout Timer
    is pending, the timer is cancelled; the Fallback Mode Flag is false in
    every state of the session, before and after, whatever events follow
    (a later [disconnected] included), and no GazeController is ever
    constructed. *)
Theorem connect_cancels_timeout (n : nat) (pre : list Event) (i : nat)
    (post : list Event) :
  let boot := constructor n in
  let s := run pre boot in
  let s' := step s (EvController i connected) in
  timers s <> [] -> i < 2 ->
  timers s' = [] /\
  Forall (fun x => fallbackFlag x = false)
         (states (pre ++ EvController i connected :: post) boot) /\
  Forall (fun x => timers x = [] /\ useGaze x = None /\ gazeInstances x = [])
         (states post s').
Proof.
  intros boot s s' Ht Hi.
  destruct (session_pending n pre Ht) as (tid & due & R). fold boot s in R.
  destruct (step_Ready tid _ s (EvController i connected) R) as [R' _].
  fold s' in R'. simpl in R'.
  apply Nat.ltb_lt in Hi. rewrite Hi in R'.
  assert (Forall (Ready tid MCancelled) (states post s')) as F.
  { refine (Forall2_Forall_l (fun m => m = MCancelled) (Ready tid) _ _ _ _
              (states_Ready post tid _ _ R') (modes_cancelled _ _)).
    now intros a b ->. }
  split; [apply R'|]. split.
  - rewrite states_cons_app. fold boot s s'.
    apply Forall_app. split; [|constructor].
    + apply Forall_of_map with (P := fun b => b = false), flags_before.
      fold s. now rewrite (Ready_flag _ _ _ R).
    + now rewrite (Ready_flag _ _ _ R').
    + apply (Forall_impl _ _ _ F). intros x Rx. now rewrite (Ready_flag _ _ _ Rx).
  - apply (Forall_impl _ _ _ F).
    intros x (_ & _ & Htx & _ & Hu & _ & Hgi & _). auto.
Qed.

Lemma connect_cancels_timeout_witness :
  let boot := constructor 2 in
  let pre := modelsLoaded ++ [EvElapse 500] in
  let post := [EvElapse 1500; EvController 1 disconnected; EvElapse 4000] in
  (timers (run pre boot) <> [] /\ 1 < 2) /\
  timers (step (run pre boot) (EvController 1 connected)) = [] /\
  Forall (fun x => fallbackFlag x = false)
         (states (pre ++ EvController 1 connected :: post) boot).
Proof.
  assert (timers (run (modelsLoaded ++ [EvElapse 500]) (constructor 2)) <> [])
    as Ht by (vm_compute; discriminate).
  assert (1 < 2) as Hi by lia.
  pose proof (connect_cancels_timeout 2 _ 1
                [EvElapse 1500; EvController 1 disconnected; EvElapse 4000]
                Ht Hi) as (Hc & Hf & _).
  split; [split; assumption|]. split; [exact Hc|exact Hf].
Defined.

(** C6: whatever the number of physical devices, the event that completes
    setup leaves exactly the two handles 0 and 1 allocated;
    [buildControllers] returns these two in any state.  From then on, in
    every later state of the session, whatever the triggers' positions have
    become, each handle carries a select-start, a select-end and a
    connected listener; a select-start on a handle sets that handle's
    [selectPressed] to true and a select-end sets it to false, both leaving
    the other handle as it was; a connected on either handle leaves no
    Timeout Timer pending. *)
Theorem setup_wires_two_handles (n : nat) (pre : list Event) (e : Event) :
  let s0 := run pre (constructor n) in
  let s1 := step s0 e in
  controllers s0 = None -> controllers s1 <> None ->
  controllers s1 = Some [0; 1] /\
  dom (xrControllers s1) = {[0; 1]} /\
  (forall p s, fst (buildControllers p s) = [0; 1]) /\
  exists tid,
    timers s1 = [mkTimer tid (now s1 + 2000) connectionTimeout] /\
    forall (post : list Event) (i : nat), i < 2 ->
      let s := run post s1 in
      (exists c, xrControllers s !! i = Some c /\
                 listeners c = [(selectstart, onSelectStart);
                                (selectend, onSelectEnd);
                                (connected, onConnected tid)]) /\
      (forall j,
         isPressed (step s (EvController i selectstart)) j =
           (if Nat.eqb j i then true else isPressed s j) /\
         isPressed (step s (EvController i selectend)) j =
           (if Nat.eqb j i then false else isPressed s j)) /\
      timers (step s (EvController i connected)) = [].
Proof.
  intros s0 s1 H0 H1.
  pose proof (session_unset n pre H0) as L0. fold s0 in L0.
  destruct (step_Loading s0 e L0) as [_ [L1|(tid & R1 & Hs)]].
  { destruct L1 as (_ & Hc & _). contradiction. }
  fold s1 in R1, Hs.
  split; [apply R1|]. split; [rewrite Hs; apply handles_dom|].
  split; [intros p s; reflexivity|].
  exists tid. split; [apply R1|]. intros post i Hi s.
  pose proof (run_Ready post tid _ s1 R1) as R. fold s in R.
  set (m := finalMode post _ _) in R. clearbody m.
  destruct (Ready_select tid m s i R Hi) as (p0 & p1 & Hx & Hsel).
  split; [|split].
  - rewrite Hx. now apply handles_lookup_lt.
  - intros j. rewrite !(isPressed_handles _ _ _ _ _ Hx).
    pose proof (Hsel true) as Hon. pose proof (Hsel false) as Hoff.
    destruct i as [|[|i]]; [| |lia];
      rewrite (isPressed_handles _ _ _ _ j Hon), (isPressed_handles _ _ _ _ j Hoff);
      destruct j as [|[|j]]; simpl; auto.
  - destruct (step_Ready tid m s (EvController i connected) R) as [R' _].
    destruct R' as (_ & _ & Ht & _). rewrite Ht.
    apply Nat.ltb_lt in Hi. destruct m; simpl; rewrite ?Hi; reflexivity.
Qed.

Lemma setup_wires_two_handles_witness :
  let pre := [EvLoaded model1File; EvLoadError hdrFile; EvLoaded model2File] in
  let s0 := run pre (constructor 5) in
  let s1 := step s0 (EvLoaded model3File) in
  let s := run [EvController 1 selectstart; EvElapse 300] s1 in
  (controllers s0 = None /\ controllers s1 <> None) /\
  controllers s1 = Some [0; 1] /\
  dom (xrControllers s1) = {[0; 1]} /\
  isPressed s 1 = true /\
  isPressed (step s (EvController 1 selectend)) 1 = false /\
  isPressed (step s (EvController 0 selectstart)) 1 = true /\
  timers (step s (EvController 1 connected)) = [].
Proof.
  assert (controllers (run [EvLoaded model1File; EvLoadError hdrFile;
                            EvLoaded model2File] (constructor 5)) = None) as H0
    by (vm_compute; reflexivity).
  assert (controllers (step (run [EvLoaded model1File; EvLoadError hdrFile;
                                  EvLoaded model2File] (constructor 5))
                            (EvLoaded model3File)) <> None) as H1
    by (vm_compute; discriminate).
  pose proof (setup_wires_two_handles 5 _ _ H0 H1) as (Hc & Hd & _ & tid & _ & Hw).
  destruct (Hw [EvController 1 selectstart; EvElapse 300] 1 ltac:(lia))
    as (_ & Hsel & Hcon).
  destruct (Hw [EvController 1 selectstart; EvElapse 300] 0 ltac:(lia))
    as (_ & Hsel0 & _).
  split; [split; assumption|]. split; [exact Hc|]. split; [exact Hd|].
  split; [|split; [exact (proj2 (Hsel 1))|split; [|exact Hcon]]].
  - vm_compute; reflexivity.
  - rewrite (proj1 (Hsel0 1)). vm_compute; reflexivity.
Defined.

(** ** Load failures *)

(** C8, as the code has it: a failed loader request (the environment map
    or a model) is logged and retired and nothing else in the state
    changes.  For the environment map the model loads are untouched and
    setup, if it could be reached before, can still be reached.  For a
    model the steps chained on its success never occur: whatever follows,
    no further model load is issued, XR setup does not run and no animation
    loop is registered. *)
Theorem load_failure_effects (n : nat) (pre : list Event) (u : string)
    (r : Request) (rest : list Request) :
  let s := run pre (constructor n) in
  let s' := step s (EvLoadError u) in
  takeRequest u (requests s) = Some (r, rest) ->
  transport r = viaLoader ->
  s' = set_console (console s ++ [failureLog u]) (set_requests rest s) /\
  (u = hdrFile ->
     modelCount (requests s') = modelCount (requests s) /\
     (setupReachable s -> setupReachable s')) /\
  (isModelCallback (onLoad r) = true ->
     forall post,
       ~ setupDone (run post s') /\
       controllers (run post s') = None /\
       xrEnabled (run post s') = false /\
       animationLoop (run post s') = None /\
       modelCount (requests (run post s')) = 0).
Proof.
  intros s s' T Hv.
  pose proof (session_issued n pre) as Hr. fold s in Hr.
  pose proof (loadError_effect s u r rest Hr T Hv) as E. fold s' in E.
  destruct (takeRequest_Forall issued _ _ _ _ T Hr) as [Hir Hrest].
  pose proof (takeRequest_modelCount _ _ _ _ T) as Hcount.
  pose proof (takeRequest_url _ _ _ _ T) as Hu.
  assert (requests s' = rest) as Hreq by (rewrite E; reflexivity).
  split; [exact E|]. split.
  - intros ->.
    assert (isModelCallback (onLoad r) = false) as Hnm
      by (destruct Hir as [->|[->|[->|[->| ->]]]]; try discriminate; reflexivity).
    rewrite Hnm in Hcount. simpl in Hcount.
    split; [rewrite Hreq; lia|]. intros Hreach.
    destruct (session_phase n pre) as [L|(tid & m & R)]; fold s in L || fold s in R.
    + destruct (Loading_after s (EvLoadError hdrFile) L) as [L'|D];
        fold s' in L' || fold s' in D; [|exists []; exact D].
      pose proof L as (_ & _ & _ & _ & _ & _ & _ & _ & _ & Hle & _).
      destruct (decide (modelCount (requests s) = 0)) as [Hz|Hnz].
      * destruct (stuck_not_setupReachable s L Hz Hreach).
      * apply progress; [exact L'|]. rewrite Hreq. lia.
    + exists []. simpl. eapply Ready_setupDone.
      apply (step_Ready tid m s (EvLoadError hdrFile) R).
  - intros Hm post. rewrite Hm in Hcount.
    destruct (session_phase n pre) as [L|(tid & m & R)]; fold s in L || fold s in R.
    + pose proof L as (Hp & Hc & Ht & Hug & Hg & Hi & Hx & Ha & He & Hle & _).
      assert (Loading s' /\ modelCount (requests s') = 0) as St.
      { split; [|rewrite Hreq; lia].
        rewrite E. unfold Loading. simpl. repeat split; try assumption. lia. }
      destruct (stuck_forever post s' St)
        as [(_ & Hc' & _ & _ & _ & _ & _ & Ha' & He' & _) Hz'].
      repeat split; try assumption. intros (Hd & _). congruence.
    + destruct R as (_ & _ & _ & _ & _ & _ & _ & _ & _ & _ & Hz & _). lia.
Qed.

Lemma load_failure_effects_witness :
  let s := run [EvLoaded model1File] (constructor 0) in
  let rest := [hdrRequest; boardRequest] in
  (takeRequest model2File (requests s) = Some (model2Request, rest) /\
   transport model2Request = viaLoader) /\
  step s (EvLoadError model2File) =
    set_console (console s ++ [failureLog model2File]) (set_requests rest s).
Proof.
  assert (takeRequest model2File
            (requests (run [EvLoaded model1File] (constructor 0))) =
          Some (model2Request, [hdrRequest; boardRequest])) as T
    by (vm_compute; reflexivity).
  assert (transport model2Request = viaLoader) as Hv by reflexivity.
  split; [split; [exact T|exact Hv]|].
  apply (load_failure_effects 0 _ _ _ _ T Hv).
Defined.

(** C8, as stated, fails: the first model fails to load, the failure is
    logged, the other requests complete and nothing is left pending; yet no
    other model was loaded, XR setup did not run and no animation loop was
    registered. *)
Lemma model_load_failure_halts_setup :
  let s := run [EvLoadError model1File; EvLoaded hdrFile; EvLoaded boardFile]
               (constructor 0) in
  console s = [model1File] /\
  requests s = [] /\ timers s = [] /\
  scene s = [ODolly; OAmbient] /\
  controllers s = None /\ xrEnabled s = false /\ animationLoop s = None.
Proof. vm_compute. repeat split. Qed.

(** * Further properties of the code *)

(** ** Shape of every session state *)

Lemma session_cases n tr :
  let s := run tr (constructor n) in
  (Loading s /\ controllers s = None) \/
  (exists tid m, Ready tid m s /\ controllers s = Some [0; 1]).
Proof.
  intros s. destruct (session_phase n tr) as [L|(tid & m & R)].
  - left. split; [exact L|apply L].
  - right. exists tid, m. split; [exact R|apply R].
Qed.

(** X1: [loadModels], lines 98-114: the model loads are strictly sequential; at
    no time in a session are two model requests pending, and none is
    pending once setup has run. *)
Theorem model_loads_sequential (n : nat) (tr : list Event) :
  let s := run tr (constructor n) in
  modelCount (requests s) <= 1 /\
  (controllers s <> None -> modelCount (requests s) = 0).
Proof.
  intros s. destruct (session_cases n tr) as [[L Hc]|(tid & m & R & Hc)];
    fold s in L || fold s in R; fold s in Hc.
  - split; [apply L|]. intros H. contradiction.
  - destruct R as (_ & _ & _ & _ & _ & _ & _ & _ & _ & _ & Hz & _).
    split; [lia|]. intros _. exact Hz.
Qed.

(** X2: [setupXR], lines 124 and 134-141: in every state of a session at most
    one timer is pending and at most one GazeController has been built; the
    flag is true exactly when that GazeController is in place; the flag
    and a pending timer never coexist; a pending timer implies setup ran. *)
Theorem fallback_state_coherent (n : nat) (tr : list Event) :
  let s := run tr (constructor n) in
  length (timers s) <= 1 /\
  length (gazeInstances s) <= 1 /\
  (fallbackFlag s = true <->
   gazeController s = Some (mkGazeController OScene ODummyCam)) /\
  (fallbackFlag s = true <->
   gazeInstances s = [mkGazeController OScene ODummyCam]) /\
  (fallbackFlag s = true -> timers s = []) /\
  (timers s <> [] -> setupDone s).
Proof.
  intros s. destruct (session_cases n tr) as [[L Hc]|(tid & m & R & Hc)];
    fold s in L || fold s in R; fold s in Hc.
  - destruct L as (_ & _ & Ht & Hu & Hg & Hi & _).
    unfold fallbackFlag. rewrite Ht, Hu, Hg, Hi. simpl.
    repeat split; try lia; try discriminate; try congruence.
  - pose proof (Ready_setupDone _ _ _ R) as (D1 & D2 & D3).
    destruct R as (_ & _ & Ht & _ & Hu & Hg & Hi & _).
    unfold fallbackFlag. rewrite Ht, Hu, Hg, Hi.
    destruct m as [due| |]; simpl;
      repeat split; try lia; try discriminate; try congruence; auto.
Qed.

(** X3: [setupXR], lines 143-149, and [buildControllers], lines 179-183: before
    setup no controller object has been requested; in every state after
    setup exactly the handles 0 and 1 exist and each has one pointer line, a
    boolean [selectPressed] and exactly the three listeners registered by
    setup, all handles sharing one timeout id: listeners are never
    duplicated or removed. *)
Theorem handles_keep_their_wiring (n : nat) (tr : list Event) :
  let s := run tr (constructor n) in
  (controllers s = None -> xrControllers s = ∅) /\
  (controllers s <> None ->
   dom (xrControllers s) = {[0; 1]} /\
   exists tid, forall i c,
     xrControllers s !! i = Some c ->
     attached c = [OLine] /\
     (exists b, selectPressed c = Some b) /\
     listeners c = [(selectstart, onSelectStart); (selectend, onSelectEnd);
                    (connected, onConnected tid)]).
Proof.
  intros s. destruct (session_cases n tr) as [[L Hc]|(tid & m & R & Hc)];
    fold s in L || fold s in R; fold s in Hc.
  - split; [intros _; apply L|]. intros H. contradiction.
  - split; [rewrite Hc; discriminate|]. intros _.
    destruct R as (_ & _ & _ & _ & _ & _ & _ & (p0 & p1 & Hx) & _).
    rewrite Hx. split; [apply handles_dom|]. exists tid. intros i c.
    destruct i as [|[|i]].
    + rewrite handles_lookup_0. intros [= <-]. simpl. eauto.
    + rewrite handles_lookup_1. intros [= <-]. simpl. eauto.
    + rewrite handles_lookup_ge. discriminate.
Qed.

(** ** Controller events *)

Lemma set_xrControllers_same s : set_xrControllers (xrControllers s) s = s.
Proof. now destruct_state s. Qed.

Lemma set_timers_same s : set_timers (timers s) s = s.
Proof. now destruct_state s. Qed.

Lemma Loading_dispatch s i ty : Loading s -> step s (EvController i ty) = s.
Proof.
  intros (_ & _ & _ & _ & _ & _ & Hx & _). unfold step, dispatch.
  now rewrite Hx, lookup_empty.
Qed.

Lemma Ready_dispatch_ge tid m s i ty :
  Ready tid m s -> step s (EvController (S (S i)) ty) = s.
Proof.
  intros (_ & _ & _ & _ & _ & _ & _ & (p0 & p1 & Hx) & _). unfold step, dispatch.
  now rewrite Hx, handles_lookup_ge.
Qed.

(** X4: [setupXR], lines 145-149: no listener is registered for [disconnected],
    so in every state of a session a controller's disconnect changes nothing
    at all; in particular it does not re-arm the timer. *)
Theorem disconnected_ignored (n : nat) (tr : list Event) (i : nat) :
  let s := run tr (constructor n) in
  step s (EvController i disconnected) = s.
Proof.
  intros s. destruct (session_cases n tr) as [[L _]|(tid & m & R & _)];
    fold s in L || fold s in R.
  - now apply Loading_dispatch.
  - destruct i as [|[|i]]; [| |eapply Ready_dispatch_ge; eassumption];
      destruct R as (_ & _ & _ & _ & _ & _ & _ & (p0 & p1 & Hx) & _);
      unfold step, dispatch; rewrite Hx.
    + now rewrite handles_lookup_0.
    + now rewrite handles_lookup_1.
Qed.

(** X5: [onConnected], lines 134-136: when no timer is pending (before setup,
    after a first connect, after the timeout fired) a controller's
    [connected] changes nothing at all. *)
Theorem connected_without_timer_ignored (n : nat) (tr : list Event) (i : nat) :
  let s := run tr (constructor n) in
  timers s = [] ->
  step s (EvController i connected) = s.
Proof.
  intros s Ht. destruct (session_cases n tr) as [[L _]|(tid & m & R & _)];
    fold s in L || fold s in R.
  - now apply Loading_dispatch.
  - destruct i as [|[|i]]; [| |eapply Ready_dispatch_ge; eassumption];
      destruct R as (_ & _ & _ & _ & _ & _ & _ & (p0 & p1 & Hx) & _);
      unfold step, dispatch; rewrite Hx;
      [rewrite handles_lookup_0|rewrite handles_lookup_1];
      simpl; unfold clearTimeout; rewrite Ht; simpl; rewrite <- Ht;
      apply set_timers_same.
Qed.

Lemma connected_without_timer_ignored_witness :
  let s := run (modelsLoaded ++ [EvController 1 connected]) (constructor 2) in
  timers s = [] /\ step s (EvController 0 connected) = s.
Proof.
  assert (timers (run (modelsLoaded ++ [EvController 1 connected])
                      (constructor 2)) = []) as Ht by (vm_compute; reflexivity).
  split; [exact Ht|]. apply connected_without_timer_ignored. exact Ht.
Defined.

Lemma handles_inj a b c d tid :
  handles a b tid = handles c d tid -> a = c /\ b = d.
Proof.
  intros H. split.
  - apply (f_equal (fun m => m !! 0)) in H.
    rewrite !handles_lookup_0 in H. now injection H.
  - apply (f_equal (fun m => m !! 1)) in H.
    rewrite !handles_lookup_1 in H. now injection H.
Qed.

(** A trigger event on a wired handle rewrites that handle's flag and
    nothing else. *)
Lemma Ready_select_step tid m s i v :
  Ready tid m s -> i < 2 ->
  exists p0 p1,
    xrControllers s = handles p0 p1 tid /\
    step s (EvController i (selectEvent v)) =
      set_xrControllers
        (match i with 0 => handles v p1 tid | _ => handles p0 v tid end) s.
Proof.
  intros (Hp & Hc & Ht & Hn & Hu & Hg & Hi & (p0 & p1 & Hx) & Ha & He & Hm & Hr) Hlt.
  exists p0, p1. split; [assumption|].
  unfold step, dispatch. rewrite Hx.
  destruct i as [|[|i]]; [| |lia].
  - rewrite handles_lookup_0. destruct v; simpl; unfold updateController;
      rewrite Hx; now erewrite handles_alter_0.
  - rewrite handles_lookup_1. destruct v; simpl; unfold updateController;
      rewrite Hx; now erewrite handles_alter_1.
Qed.

Lemma set_xrControllers_twice a b s :
  set_xrControllers a (set_xrControllers b s) = set_xrControllers a s.
Proof. now destruct_state s. Qed.

(** X6: [onSelectStart] and [onSelectEnd], lines 126-132: in every state of a
    session a trigger event changes at most the controller store (timers,
    flag, rig, scene and requests stay as they are), and of two
    consecutive trigger events on one handle the last one wins: pressing or
    releasing twice is the same as once, and a release undoes a press. *)
Theorem select_events_only_set_the_flag (n : nat) (tr : list Event) (i : nat)
    (v w : bool) :
  let s := run tr (constructor n) in
  step s (EvController i (selectEvent v)) =
    set_xrControllers (xrControllers (step s (EvController i (selectEvent v)))) s /\
  step (step s (EvController i (selectEvent w))) (EvController i (selectEvent v)) =
    step s (EvController i (selectEvent v)).
Proof.
  intros s. destruct (session_cases n tr) as [[L _]|(tid & m & R & _)];
    fold s in L || fold s in R.
  - rewrite !(Loading_dispatch s) by assumption.
    now rewrite set_xrControllers_same.
  - destruct (lt_dec i 2) as [Hi|Hi].
    + destruct (Ready_select_step tid m s i v R Hi) as (p0 & p1 & Hx & Ev).
      destruct (Ready_select_step tid m s i w R Hi) as (p0' & p1' & Hx' & Ew).
      rewrite Hx in Hx'. apply handles_inj in Hx' as [<- <-].
      pose proof (proj1 (step_Ready tid m s (EvController i (selectEvent w)) R))
        as Rw.
      destruct (Ready_select_step tid _ _ i v Rw Hi) as (q0 & q1 & Hq & Evw).
      rewrite Evw, Ew, set_xrControllers_twice, Ev.
      split; [reflexivity|].
      rewrite Ew in Hq. f_equal.
      destruct i as [|[|i]]; [| |lia];
        apply handles_inj in Hq as [<- <-]; reflexivity.
    + destruct i as [|[|i]]; [lia|lia|].
      rewrite !(Ready_dispatch_ge tid m s) by assumption.
      now rewrite set_xrControllers_same.
Qed.

(** ** The timeout is not early *)

Lemma modes_cancelled_quiet tr t :
  Forall (fun m => isFallback m = false) (modes tr MCancelled t).
Proof.
  apply (Forall_impl _ _ _ (modes_cancelled tr t)). now intros m ->.
Qed.

Lemma modes_early w due t :
  t + elapsed w < due ->
  Forall (fun m => isFallback m = false) (modes w (MArmed due) t).
Proof.
  revert t. induction w as [|e w IH]; intros t H; simpl; [constructor|].
  destruct e as [f|f|ms|i ty|q|dt]; simpl in *;
    try (constructor; [reflexivity|apply IH; assumption]).
  - assert ((due <=? t + ms) = false) as -> by (apply Nat.leb_gt; lia).
    constructor; [reflexivity|]. apply IH. lia.
  - destruct ty; try (constructor; [reflexivity|apply IH; assumption]).
    destruct (i <? 2).
    + constructor; [reflexivity|apply modes_cancelled_quiet].
    + constructor; [reflexivity|apply IH; assumption].
Qed.

(** X7: [setupXR], lines 124 and 138-141: the fallback is never early; as long
    as fewer than 2000 ms have passed since the event that ran setup, the
    flag is false and no GazeController has been built, whatever events
    occurred, controller connections included. *)
Theorem no_fallback_before_timeout (n : nat) (pre : list Event) (e : Event)
    (w : list Event) :
  let s0 := run pre (constructor n) in
  let s1 := step s0 e in
  controllers s0 = None -> controllers s1 <> None ->
  elapsed w < 2000 ->
  fallbackFlag s1 = false /\
  Forall (fun x => fallbackFlag x = false /\ gazeInstances x = [] /\
                   gazeController x = None)
         (states w s1).
Proof.
  intros s0 s1 H0 H1 Hw.
  pose proof (session_unset n pre H0) as L0. fold s0 in L0.
  destruct (step_Loading s0 e L0) as [_ [L1|(tid & R1 & _)]].
  { destruct L1 as (_ & Hc & _). contradiction. }
  fold s1 in R1. split; [now rewrite (Ready_flag _ _ _ R1)|].
  refine (Forall2_Forall_l (fun m => isFallback m = false) (Ready tid) _ _ _ _
            (states_Ready w tid _ _ R1) (modes_early w _ _ _)); [|lia].
  intros m x Hm R. pose proof (Ready_flag _ _ _ R) as Hf.
  destruct R as (_ & _ & _ & _ & _ & Hg & Hi & _).
  rewrite Hm in *. auto.
Qed.

Lemma no_fallback_before_timeout_witness :
  let pre := [EvLoaded model1File; EvLoaded model2File] in
  let s0 := run pre (constructor 0) in
  let s1 := step s0 (EvLoaded model3File) in
  let w := [EvElapse 1000; EvFrame 0.016; EvElapse 999] in
  (controllers s0 = None /\ controllers s1 <> None /\ elapsed w < 2000) /\
  Forall (fun x => fallbackFlag x = false /\ gazeInstances x = [] /\
                   gazeController x = None)
         (states w s1).
Proof.
  assert (controllers (run [EvLoaded model1File; EvLoaded model2File]
                           (constructor 0)) = None) as H0
    by (vm_compute; reflexivity).
  assert (controllers (step (run [EvLoaded model1File; EvLoaded model2File]
                                 (constructor 0)) (EvLoaded model3File)) <> None)
    as H1 by (vm_compute; discriminate).
  assert (elapsed [EvElapse 1000; EvFrame 0.016; EvElapse 999] < 2000) as Hw
    by (simpl; lia).
  split; [repeat split; assumption|].
  apply (no_fallback_before_timeout 0 _ _ _ H0 H1 Hw).
Defined.

(** ** When setup can still happen *)

(** X8: [loadModels], lines 98-114: in every state of a session, XR setup has
    run or can still be reached exactly when setup has already run or a
    model request is pending; once a model load has failed it is out of
    reach for good. *)
Theorem setup_reachable_iff (n : nat) (tr : list Event) :
  let s := run tr (constructor n) in
  setupReachable s <-> (controllers s <> None \/ modelCount (requests s) = 1).
Proof.
  intros s. destruct (session_cases n tr) as [[L Hc]|(tid & m & R & Hc)];
    fold s in L || fold s in R; fold s in Hc.
  - pose proof L as (_ & _ & _ & _ & _ & _ & _ & _ & _ & Hle & _). split.
    + intros Hr. right.
      destruct (decide (modelCount (requests s) = 0)) as [Hz|Hnz]; [|lia].
      destruct (stuck_not_setupReachable s L Hz Hr).
    + intros [H|H]; [contradiction|]. now apply progress.
  - split.
    + intros _. left. rewrite Hc. discriminate.
    + intros _. exists []. simpl. eapply Ready_setupDone, R.
Qed.

(** ** [buildControllers] on an arbitrary state *)

Lemma touchesGraph_refl s : touchesGraph s s.
Proof. unfold touchesGraph. now destruct_state s. Qed.

Lemma touchesGraph_trans s1 s2 s3 :
  touchesGraph s1 s2 -> touchesGraph s2 s3 -> touchesGraph s1 s3.
Proof.
  unfold touchesGraph. intros H12 H23. rewrite H23 at 1. rewrite H12 at 1.
  now destruct_state s1.
Qed.

Lemma handle_not_parent p c :
  isHandle p = false -> isHandle c = true -> Obj_eqb p c = false.
Proof. now destruct p, c. Qed.

Lemma addTo_touches p c s :
  Obj_eqb p c = false -> touchesGraph s (addTo p c s).
Proof.
  intros H. unfold touchesGraph, addTo. rewrite H. destruct_state s.
  now destruct p.
Qed.

Lemma set_xrControllers_touches m s : touchesGraph s (set_xrControllers m s).
Proof. unfold touchesGraph. now destruct_state s. Qed.

Lemma buildController_unfold parent cs s i :
  buildController parent (cs, s) i =
  (cs ++ [i],
   addTo parent (OGrip i)
     (addTo parent (OController i)
        (updateController i (set_selectPressed false)
           (updateController i (attach OLine) (getController i s))))).
Proof. reflexivity. Qed.

Lemma buildControllers_unfold p s :
  buildControllers p s =
  buildController (default OScene p)
    (buildController (default OScene p) ([], s) 0) 1.
Proof. reflexivity. Qed.

Lemma buildController_touches parent cs s i :
  isHandle parent = false ->
  touchesGraph s (snd (buildController parent (cs, s) i)).
Proof.
  intros Hp. rewrite buildController_unfold. cbn [snd].
  eapply touchesGraph_trans; [|now apply addTo_touches, handle_not_parent].
  eapply touchesGraph_trans; [|now apply addTo_touches, handle_not_parent].
  eapply touchesGraph_trans; [|apply set_xrControllers_touches].
  eapply touchesGraph_trans; [|apply set_xrControllers_touches].
  apply set_xrControllers_touches.
Qed.

Lemma without_app x l1 l2 : without x (l1 ++ l2) = without x l1 ++ without x l2.
Proof. apply List.filter_app. Qed.

Lemma withoutAll_app xs l1 l2 :
  withoutAll xs (l1 ++ l2) = withoutAll xs l1 ++ withoutAll xs l2.
Proof. apply List.filter_app. Qed.

(** Taking the four nodes out one after the other. *)
Lemma without_nodes l :
  without (OGrip 1) (without (OController 1)
    (without (OGrip 0) (without (OController 0) l))) =
  withoutAll controllerNodes l.
Proof.
  induction l as [|x l IH]; [reflexivity|].
  destruct x as [| | | | |k|[|[|k]]|[|[|k]]| |]; simpl; now rewrite <- IH.
Qed.

Lemma nodes_moved l :
  without (OGrip 1)
    (without (OController 1)
       (without (OGrip 0) (without (OController 0) l ++ [OController 0])
        ++ [OGrip 0]) ++ [OController 1]) ++ [OGrip 1] =
  withoutAll controllerNodes l ++ controllerNodes.
Proof.
  rewrite !without_app, without_nodes. simpl. now rewrite <- !app_assoc.
Qed.

Lemma removeFrom_nodes o :
  removeFrom (OGrip 1) (removeFrom (OController 1)
    (removeFrom (OGrip 0) (removeFrom (OController 0) o))) = unhook o.
Proof.
  destruct o as [p q ch]. unfold removeFrom, unhook, set_children.
  cbn [children position quaternion]. now rewrite without_nodes.
Qed.

Lemma removeFromHandle_nodes c :
  removeFromHandle (OGrip 1) (removeFromHandle (OController 1)
    (removeFromHandle (OGrip 0) (removeFromHandle (OController 0) c))) =
  unhookHandle c.
Proof.
  destruct c as [sp ch ls]. unfold removeFromHandle, unhookHandle, set_attached.
  cbn [attached selectPressed listeners]. now rewrite without_nodes.
Qed.

(** X9: [buildControllers], lines 168-191, called as on line 143 with
    [this.dolly]: the call changes nothing but the controller store and the
    children of the scene, the camera, the rig and the dummy camera.  The
    two controllers and grips leave whichever of these held them and become
    the last children of the parent, in the order controller 0, grip 0,
    controller 1, grip 1, each of them once: with the rig defined the
    parent is the rig; with the rig undefined the default parameter applies
    and the parent is the scene. *)
Theorem buildControllers_parent (s : State) :
  let s' := snd (buildControllers (dollyRef s) s) in
  touchesGraph s s' /\
  camera s' = unhook (camera s) /\
  dummyCam s' = unhook (dummyCam s) /\
  match dolly s with
  | Some d =>
      scene s' = withoutAll controllerNodes (scene s) /\
      dolly s' = Some (set_children
                         (withoutAll controllerNodes (children d) ++
                          controllerNodes) d)
  | None =>
      scene s' = withoutAll controllerNodes (scene s) ++ controllerNodes /\
      dolly s' = None
  end.
Proof.
  intros s'. subst s'. rewrite buildControllers_unfold.
  set (parent := default OScene (dollyRef s)).
  assert (isHandle parent = false) as Hp
    by (unfold parent, dollyRef; now destruct (dolly s)).
  split.
  { destruct (buildController parent ([], s) 0) as [cs s1] eqn:E.
    assert (s1 = snd (buildController parent ([], s) 0)) as Hs1 by now rewrite E.
    eapply touchesGraph_trans; [|now apply buildController_touches].
    rewrite Hs1. now apply buildController_touches. }
  clear Hp. subst parent. unfold dollyRef.
  destruct_state s. destruct dol as [[p q ch]|];
    cbn [default from_option id buildController addTo Obj_eqb detach
         getController updateController set_xrControllers set_scene set_dolly
         set_camera set_dummyCam scene dolly camera dummyCam snd fst fmap
         option_fmap option_map xrControllers];
    rewrite !removeFrom_nodes.
  - split; [reflexivity|]. split; [reflexivity|].
    split; [apply without_nodes|]. f_equal.
    unfold add, removeFrom, set_children. cbn [children position quaternion].
    now rewrite nodes_moved.
  - split; [reflexivity|]. split; [reflexivity|].
    split; [apply nodes_moved|reflexivity].
Qed.

(** Building the controllers again moves them; it does not duplicate them. *)
Example selectHeld_rebuilt :
  rigChildren selectHeld = Some (OCamera :: controllerNodes) /\
  rigChildren (snd (buildControllers (dollyRef selectHeld) selectHeld)) =
    Some (OCamera :: controllerNodes).
Proof. split; vm_compute; reflexivity. Qed.

Lemma addTo_store p c s :
  isHandle p = false -> isHandle c = true ->
  xrControllers (addTo p c s) = removeFromHandle c <$> xrControllers s.
Proof.
  intros Hp Hc. unfold addTo. rewrite (handle_not_parent _ _ Hp Hc).
  destruct_state s. now destruct p.
Qed.

Lemma set_xrControllers_store m s : xrControllers (set_xrControllers m s) = m.
Proof. now destruct_state s. Qed.

Lemma buildController_store parent cs s i :
  isHandle parent = false ->
  xrControllers (snd (buildController parent (cs, s) i)) =
  removeFromHandle (OGrip i) <$>
    (removeFromHandle (OController i) <$>
       <[i := rebuilt (xrControllers s !! i)]> (xrControllers s)).
Proof.
  intros Hp. rewrite buildController_unfold. cbn [snd].
  rewrite !addTo_store by (assumption || reflexivity). do 2 f_equal.
  unfold updateController, getController. rewrite !set_xrControllers_store.
  apply map_eq. intros j. destruct (decide (i = j)) as [<-|Hne].
  - rewrite lookup_insert_eq, !lookup_alter_eq.
    destruct (xrControllers s !! i) as [c|] eqn:E.
    + now rewrite E.
    + now rewrite lookup_insert_eq.
  - rewrite lookup_insert_ne, !lookup_alter_ne by assumption.
    destruct (xrControllers s !! i); [reflexivity|].
    now rewrite lookup_insert_ne.
Qed.

Lemma rebuilt_moved (o : option Controller) :
  removeFromHandle (OGrip 1) (removeFromHandle (OController 1)
    (rebuilt (removeFromHandle (OGrip 0) <$>
                (removeFromHandle (OController 0) <$> o)))) =
  rebuilt (unhookHandle <$> o).
Proof.
  destruct o as [[sp ch ls]|]; [|reflexivity].
  unfold rebuilt, removeFromHandle, unhookHandle, set_attached.
  cbn [fmap option_fmap option_map default from_option id attached
       selectPressed listeners].
  f_equal. rewrite !without_app, without_nodes. reflexivity.
Qed.

Lemma rebuilt_unhooked (o : option Controller) :
  removeFromHandle (OGrip 1) (removeFromHandle (OController 1)
    (removeFromHandle (OGrip 0) (removeFromHandle (OController 0) (rebuilt o)))) =
  rebuilt (unhookHandle <$> o).
Proof.
  rewrite removeFromHandle_nodes. destruct o as [[sp ch ls]|]; [|reflexivity].
  unfold rebuilt, unhookHandle, set_attached.
  cbn [fmap option_fmap option_map default from_option id attached
       selectPressed listeners].
  f_equal. now rewrite withoutAll_app.
Qed.

Lemma buildControllers_store_eq (p : option Obj) (s : State) :
  isHandle (default OScene p) = false ->
  xrControllers (snd (buildControllers p s)) =
  <[1 := rebuilt (unhookHandle <$> xrControllers s !! 1)]>
    (<[0 := rebuilt (unhookHandle <$> xrControllers s !! 0)]>
       (unhookHandle <$> xrControllers s)).
Proof.
  intros Hp. rewrite buildControllers_unfold.
  destruct (buildController (default OScene p) ([], s) 0) as [cs s1] eqn:E0.
  rewrite buildController_store by assumption.
  replace s1 with (snd (buildController (default OScene p) ([], s) 0))
    by now rewrite E0.
  rewrite buildController_store by assumption.
  set (m := xrControllers s).
  apply map_eq. intros j.
  destruct j as [|[|j]];
    repeat (rewrite lookup_fmap || rewrite lookup_insert_eq ||
            (rewrite lookup_insert_ne by lia)).
  - cbn [fmap option_fmap option_map]. f_equal. apply rebuilt_unhooked.
  - cbn [fmap option_fmap option_map]. f_equal. apply rebuilt_moved.
  - destruct (m !! S (S j)) as [c|]; [|reflexivity].
    cbn [fmap option_fmap option_map]. f_equal. apply removeFromHandle_nodes.
Qed.

(** X10: [buildControllers], lines 178-188: for any parent that is not
    itself a controller or a grip, and any state, the controller store
    afterwards is the store before with the controllers and grips taken out
    of every handle's children and the handles 0 and 1 rebuilt: a handle
    that already existed is the same object with its listeners and its
    other children kept, one more pointer line and [selectPressed] reset to
    false; a handle that did not exist is created with one line; other
    handles keep everything but the moved objects.  Calling it again
    therefore neither drops nor duplicates listeners. *)
Theorem buildControllers_store (p : option Obj) (s : State) :
  isHandle (default OScene p) = false ->
  let m := xrControllers s in
  let m' := xrControllers (snd (buildControllers p s)) in
  m' = <[1 := rebuilt (unhookHandle <$> m !! 1)]>
         (<[0 := rebuilt (unhookHandle <$> m !! 0)]> (unhookHandle <$> m)) /\
  (forall i c, i < 2 -> m !! i = Some c ->
     m' !! i = Some {| selectPressed := Some false;
                       attached := withoutAll controllerNodes (attached c) ++
                                   [OLine];
                       listeners := listeners c |}) /\
  (forall i, i < 2 -> m !! i = None ->
     m' !! i = Some {| selectPressed := Some false; attached := [OLine];
                       listeners := [] |}) /\
  (forall j, 2 <= j -> m' !! j = unhookHandle <$> m !! j).
Proof.
  intros Hp m m'.
  pose proof (buildControllers_store_eq p s Hp) as E. fold m m' in E.
  split; [exact E|]. rewrite E. repeat split.
  - intros i c Hi Hc. destruct i as [|[|i]]; [| |lia].
    + rewrite lookup_insert_ne, lookup_insert_eq by lia. now rewrite Hc.
    + rewrite lookup_insert_eq. now rewrite Hc.
  - intros i Hi Hn. destruct i as [|[|i]]; [| |lia].
    + rewrite lookup_insert_ne, lookup_insert_eq by lia. now rewrite Hn.
    + rewrite lookup_insert_eq. now rewrite Hn.
  - intros j Hj. now rewrite !lookup_insert_ne, lookup_fmap by lia.
Qed.

Lemma buildControllers_store_witness :
  let m := xrControllers selectHeld in
  let m' := xrControllers (snd (buildControllers (Some OCamera) selectHeld)) in
  isHandle (default OScene (Some OCamera)) = false /\
  m !! 0 = Some (handle true 1) /\
  m' !! 0 = Some {| selectPressed := Some false; attached := [OLine; OLine];
                    listeners := stdListeners 1 |}.
Proof.
  assert (isHandle (default OScene (Some OCamera)) = false) as Hp by reflexivity.
  assert (xrControllers selectHeld !! 0 = Some (handle true 1)) as H0
    by (vm_compute; reflexivity).
  destruct (buildControllers_store (Some OCamera) selectHeld Hp) as (_ & Hk & _).
  split; [exact Hp|]. split; [exact H0|].
  exact (Hk 0 _ ltac:(lia) H0).
Defined.

(** With controller 1 itself as the parent, controller 0 and both grips
    become children of controller 1, next to its pointer lines; adding
    controller 1 to itself is refused with an error line, so it stays under
    the rig. *)
Example controller_as_parent :
  let s' := snd (buildControllers (Some (OController 1)) selectHeld) in
  attached <$> xrControllers s' !! 1 =
    Some [OLine; OController 0; OGrip 0; OLine; OGrip 1] /\
  rigChildren s' = Some [OCamera; OController 1] /\
  length (console s') = 1.
Proof. repeat split; vm_compute; reflexivity. Qed.

(** ** The scene graph along a session *)

Lemma setupXR_graph s d :
  dolly s = Some d ->
  scene (setupXR s) = withoutAll controllerNodes (scene s) ++ [OUiMesh] /\
  rigChildren (setupXR s) =
    Some (withoutAll controllerNodes (children d) ++ controllerNodes) /\
  controllers (setupXR s) = Some [0; 1] /\
  ui (setupXR s) = Some (mkCanvasUI "name" "info" 256).
Proof.
  destruct_state s. simpl. intros ->. destruct d as [p q ch].
  unfold setupXR, rigChildren, dollyRef, buildControllers, setTimeout.
  cbn [default from_option id buildController addTo Obj_eqb detach
       getController updateController set_xrControllers set_scene set_dolly
       set_camera set_dummyCam scene dolly camera dummyCam snd fst fmap
       option_fmap option_map xrControllers set_xrEnabled set_nextTimeoutId
       set_timers nextTimeoutId timers now fold_left seq wire addEventListener
       set_controllers set_ui set_animationLoop controllers ui children
       app].
  rewrite without_nodes. repeat split.
  unfold add, removeFrom, set_children. cbn [children position quaternion].
  now rewrite nodes_moved.
Qed.

Lemma takeRequest_pendingModels u l r rest :
  takeRequest u l = Some (r, rest) -> modelCount l <= 1 ->
  (isModelCallback (onLoad r) = true ->
   pendingModels l = [r] /\ pendingModels rest = []) /\
  (isModelCallback (onLoad r) = false -> pendingModels rest = pendingModels l).
Proof.
  unfold modelCount, pendingModels.
  revert r rest. induction l as [|x l IH]; intros r rest; simpl; [discriminate|].
  destruct (String.eqb (url x) u).
  - intros [= <- <-] Hle. split; intros Hm; rewrite Hm in *; [|reflexivity].
    simpl in Hle.
    destruct (List.filter (fun r => isModelCallback (onLoad r)) l);
      [auto|simpl in Hle; lia].
  - destruct (takeRequest u l) as [[r' rest']|]; [|discriminate].
    intros [= <- <-] Hle. simpl.
    destruct (isModelCallback (onLoad x)) eqn:Ex; simpl in Hle.
    + destruct (IH r' rest' eq_refl ltac:(lia)) as [IH1 IH2].
      split; intros Hm.
      * destruct (IH1 Hm) as [E _]. rewrite E in Hle. simpl in Hle. lia.
      * now rewrite (IH2 Hm).
    + destruct (IH r' rest' eq_refl Hle) as [IH1 IH2]. split; auto.
Qed.

(** After setup no event touches the scene's children, the rig, the UI
    panel or the list of handles. *)
Lemma Ready_step_graph tid m s e :
  Ready tid m s ->
  scene (step s e) = scene s /\ dolly (step s e) = dolly s /\
  ui (step s e) = ui s /\ controllers (step s e) = controllers s.
Proof.
  intros (Hp & Hc & Ht & Hn & Hu & Hg & Hi & (p0 & p1 & Hx) & Ha & He & Hm & Hr).
  destruct_state s; simpl in *; subst.
  destruct e as [f|f|ms|i ty|q|dt].
  - cbn [step requests].
    destruct (takeRequest f rqs) as [[r rest]|] eqn:T; [|repeat split].
    destruct (takeRequest_benign _ _ _ _ T Hr Hm) as ([-> | ->] & _ & _);
      repeat split.
  - cbn [step requests].
    destruct (takeRequest f rqs) as [[r rest]|] eqn:T; [|repeat split].
    destruct (takeRequest_benign _ _ _ _ T Hr Hm) as ([-> | ->] & _ & _);
      repeat split.
  - destruct m as [due| |]; simpl; [|repeat split..].
    destruct (due <=? nw + ms); repeat split.
  - unfold step, dispatch. simpl xrControllers.
    destruct i as [|[|i]].
    + rewrite handles_lookup_0. destruct ty, m; repeat split.
    + rewrite handles_lookup_1. destruct ty, m; repeat split.
    + rewrite handles_lookup_ge. repeat split.
  - repeat split.
  - repeat split.
Qed.

Lemma modelRequest_inj j r :
  j <= 2 -> [modelRequest (S j)] = [r] ->
  (r = model1Request /\ j = 0) \/ (r = model2Request /\ j = 1) \/
  (r = model3Request /\ j = 2).
Proof.
  intros Hj [= <-]. destruct j as [|[|[|j]]]; [auto..|lia].
Qed.

Lemma pendingModels_app l1 l2 :
  pendingModels (l1 ++ l2) = pendingModels l1 ++ pendingModels l2.
Proof. apply List.filter_app. Qed.

Ltac shape_loading j :=
  left; unfold rigChildren; simpl;
  split; [reflexivity|]; split; [reflexivity|]; split; [congruence|];
  exists j; split; [lia|]; split; [reflexivity|].

(** While loading, the scene grows by the next model only. *)
Lemma Loading_step_shape s e :
  Loading s -> sceneShape s -> sceneShape (step s e).
Proof.
  intros L [(Hc & Hui & Hrc & j & Hj & Hsc & Hpm)|(Hc & _)];
    [|destruct L as (_ & Hc' & _); congruence].
  pose proof L as (Hp & _ & Ht & Hu & Hg & Hi & Hx & Ha & He & Hm & Hr).
  unfold rigChildren in Hrc. destruct (dolly s) as [d|] eqn:Hd; [|discriminate].
  injection Hrc as Hch.
  destruct e as [f|f|ms|i ty|q|dt].
  - unfold step.
    destruct (takeRequest f (requests s)) as [[r rest]|] eqn:T.
    2:{ destruct_state s; simpl in *; subst. shape_loading j. assumption. }
    destruct (takeRequest_Forall issued _ _ _ _ T Hr) as [Hir Hrest].
    destruct (takeRequest_pendingModels _ _ _ _ T Hm) as [Hmod Hben].
    destruct Hir as [->|[->|[->|[->| ->]]]]; cbn [onLoad call].
    + specialize (Hben eq_refl).
      destruct_state s; simpl in *; subst. shape_loading j. now rewrite Hben.
    + specialize (Hben eq_refl).
      destruct_state s; simpl in *; subst. shape_loading j. now rewrite Hben.
    + destruct (Hmod eq_refl) as [E1 E0]. rewrite E1 in Hpm.
      destruct Hpm as [?|Hpm]; [discriminate|]. symmetry in Hpm.
      destruct (modelRequest_inj j _ Hj Hpm) as [[_ ->]|[[? _]|[? _]]];
        try discriminate.
      destruct_state s; simpl in *; subst. shape_loading 1.
      right. now rewrite pendingModels_app, E0.
    + destruct (Hmod eq_refl) as [E1 E0]. rewrite E1 in Hpm.
      destruct Hpm as [?|Hpm]; [discriminate|]. symmetry in Hpm.
      destruct (modelRequest_inj j _ Hj Hpm) as [[? _]|[[_ ->]|[? _]]];
        try discriminate.
      destruct_state s; simpl in *; subst. shape_loading 2.
      right. now rewrite pendingModels_app, E0.
    + destruct (Hmod eq_refl) as [E1 E0]. rewrite E1 in Hpm.
      destruct Hpm as [?|Hpm]; [discriminate|]. symmetry in Hpm.
      destruct (modelRequest_inj j _ Hj Hpm) as [[? _]|[[? _]|[_ ->]]];
        try discriminate.
      match goal with |- sceneShape (setupXR ?x) =>
        destruct (setupXR_graph x d) as (S1 & S2 & S3 & S4) end.
      { destruct_state s. exact Hd. }
      right. rewrite S1, S2, S3, S4, Hch. clear S1 S2 S3 S4.
      repeat split. destruct_state s. simpl in Hsc. simpl. now rewrite Hsc.
  - unfold step.
    destruct (takeRequest f (requests s)) as [[r rest]|] eqn:T.
    2:{ destruct_state s; simpl in *; subst. shape_loading j. assumption. }
    destruct (takeRequest_Forall issued _ _ _ _ T Hr) as [Hir Hrest].
    destruct (takeRequest_pendingModels _ _ _ _ T Hm) as [Hmod Hben].
    destruct Hir as [->|[->|[->|[->| ->]]]]; cbn [onError call];
      try (specialize (Hben eq_refl)); try (destruct (Hmod eq_refl) as [_ E0]);
      destruct_state s; simpl in *; subst; shape_loading j;
      try (left; assumption); rewrite Hben; assumption.
  - destruct_state s; simpl in *; subst. shape_loading j. assumption.
  - rewrite (Loading_dispatch s i ty L).
    destruct_state s; simpl in *; subst. shape_loading j. assumption.
  - destruct_state s; simpl in *; subst. shape_loading j. assumption.
  - destruct_state s; simpl in *; subst. shape_loading j. assumption.
Qed.

Lemma Ready_step_shape tid m s e :
  Ready tid m s -> sceneShape s -> sceneShape (step s e).
Proof.
  intros R [(Hc & _)|(Hc & Hui & Hrc & Hsc)];
    [rewrite (Ready_controllers _ _ _ R) in Hc; discriminate|].
  destruct (Ready_step_graph tid m s e R) as (E1 & E2 & E3 & E4).
  right. unfold rigChildren in *. now rewrite E1, E2, E3, E4.
Qed.

Lemma session_shape n tr : sceneShape (run tr (constructor n)).
Proof.
  assert (forall s, (Loading s \/ exists tid m, Ready tid m s) -> sceneShape s ->
                    sceneShape (run tr s)) as H.
  { induction tr as [|e tr IH]; intros s Hs Sh; simpl; [assumption|].
    apply IH.
    - destruct Hs as [L|(tid & m & R)].
      + destruct (step_Loading s e L) as [_ [L'|(tid & R' & _)]]; eauto.
      + right. exists tid, (nextMode m (now s) e). apply step_Ready, R.
    - destruct Hs as [L|(tid & m & R)].
      + now apply Loading_step_shape.
      + eapply Ready_step_shape; eassumption. }
  apply H.
  - left. apply constructor_Loading.
  - left. repeat split; try reflexivity. exists 0. split; [lia|].
    split; [reflexivity|]. right. reflexivity.
Qed.

(** X11: [constructor], lines 28-32, [loadModels], lines 98-114, and [setupXR],
    lines 162-163: in every state of a session the scene holds the rig, the
    light and the first [j] models in load order; while loading, a pending
    model request is always the one for model [j + 1]; once setup has run
    the scene is exactly rig, light, models 1 to 3 and the UI panel.  A
    model is never in the scene without its predecessors, and setup never
    runs without all three. *)
Theorem scene_holds_models_in_order (n : nat) (tr : list Event) :
  let s := run tr (constructor n) in
  (controllers s = None ->
   exists j, j <= 2 /\
     scene s = [ODolly; OAmbient] ++ map OModel (seq 1 j) /\
     (pendingModels (requests s) = [] \/
      pendingModels (requests s) = [modelRequest (S j)])) /\
  (controllers s <> None ->
   scene s = [ODolly; OAmbient; OModel 1; OModel 2; OModel 3; OUiMesh]).
Proof.
  intros s. destruct (session_shape n tr) as [(Hc & _ & _ & H)|(Hc & _ & _ & H)];
    fold s in Hc, H.
  - split; [intros _; exact H|]. intros Hn. contradiction.
  - split; [rewrite Hc; discriminate|]. intros _. exact H.
Qed.

(** X12: [constructor], lines 22-24, [setupXR], lines 143 and 162, and
    [buildControllers], lines 182 and 187: in every state of a session the
    rig's children are the camera alone before setup and camera, controller
    0, grip 0, controller 1, grip 1 after it, so the controllers move with
    the rig; the UI panel exists exactly after setup. *)
Theorem controllers_hang_from_rig (n : nat) (tr : list Event) :
  let s := run tr (constructor n) in
  (controllers s = None ->
   rigChildren s = Some [OCamera] /\ ui s = None) /\
  (controllers s <> None ->
   rigChildren s = Some [OCamera; OController 0; OGrip 0;
                         OController 1; OGrip 1] /\
   ui s = Some (mkCanvasUI "name" "info" 256)).
Proof.
  intros s.
  destruct (session_shape n tr) as [(Hc & Hu & Hr & _)|(Hc & Hu & Hr & _)];
    fold s in Hc, Hu, Hr.
  - split; [auto|]. intros Hn. contradiction.
  - split; [rewrite Hc; discriminate|]. auto.
Qed.

(** ** The environment map *)

Lemma takeRequest_urlCount v u l r rest :
  takeRequest u l = Some (r, rest) ->
  urlCount v l = (if String.eqb (url r) v then 1 else 0) + urlCount v rest.
Proof.
  unfold urlCount.
  revert r rest. induction l as [|x l IH]; intros r rest; simpl; [discriminate|].
  destruct (String.eqb (url x) u).
  - intros [= <- <-]. destruct (String.eqb (url x) v); reflexivity.
  - destruct (takeRequest u l) as [[r' rest']|]; [|discriminate].
    intros [= <- <-]. specialize (IH r' rest' eq_refl). simpl.
    destruct (String.eqb (url x) v), (String.eqb (url r') v); simpl in *; lia.
Qed.

Lemma urlCount_app v l1 l2 : urlCount v (l1 ++ l2) = urlCount v l1 + urlCount v l2.
Proof. unfold urlCount. now rewrite List.filter_app, length_app. Qed.

Lemma setupXR_requests s :
  requests (setupXR s) = requests s /\ environment (setupXR s) = environment s.
Proof. destruct_state s. destruct dol; split; reflexivity. Qed.

(** A load event never adds a request for the environment map, and it
    changes the environment only by answering that request. *)
Lemma load_step_env s f (ok : bool) :
  Forall issued (requests s) ->
  let s' := step s (if ok then EvLoaded f else EvLoadError f) in
  urlCount hdrFile (requests s') <= urlCount hdrFile (requests s) /\
  (urlCount hdrFile (requests s') = urlCount hdrFile (requests s) ->
   environment s' = environment s).
Proof.
  intros Hr s'. unfold s'. clear s'.
  assert (step s (if ok then EvLoaded f else EvLoadError f) =
          match takeRequest f (requests s) with
          | Some (r, rest) =>
              if ok then call (onLoad r) None (set_requests rest s)
              else match onError r with
                   | Some cb => call cb None (set_requests rest s)
                   | None =>
                       match transport r with
                       | viaLoader =>
                           set_console (console s ++ [f]) (set_requests rest s)
                       | viaFetch => set_requests rest s
                       end
                   end
          | None => s
          end) as -> by (destruct ok; reflexivity).
  destruct (takeRequest f (requests s)) as [[r rest]|] eqn:T; [|auto].
  destruct (takeRequest_Forall issued _ _ _ _ T Hr) as [Hir _].
  pose proof (takeRequest_urlCount hdrFile _ _ _ _ T) as Hcount.
  destruct Hir as [->|[->|[->|[->| ->]]]]; destruct ok;
    cbn [onLoad onError transport call];
    change (String.eqb (url _) hdrFile) with true in Hcount ||
    change (String.eqb (url _) hdrFile) with false in Hcount;
    try match goal with |- context [setupXR ?x] =>
      destruct (setupXR_requests x) as [-> ->] end;
    destruct_state s; cbn [requests environment set_requests set_scene load
                           set_environment set_console set_boardData] in *;
    rewrite ?urlCount_app; try change (urlCount hdrFile [_]) with 0;
    (split; [simpl; lia|intros; (reflexivity || (simpl in *; lia))]).
Qed.

Lemma Ready_step_quiet tid m s e :
  Ready tid m s ->
  match e with
  | EvLoaded _ | EvLoadError _ => True
  | _ => requests (step s e) = requests s /\
         environment (step s e) = environment s /\
         console (step s e) = console s
  end.
Proof.
  intros (Hp & Hc & Ht & Hn & Hu & Hg & Hi & (p0 & p1 & Hx) & Ha & He & Hm & Hr).
  destruct_state s; simpl in *; subst.
  destruct e as [f|f|ms|i ty|q|dt]; try exact I.
  - destruct m as [due| |]; simpl; [|repeat split..].
    destruct (due <=? nw + ms); repeat split.
  - unfold step, dispatch. simpl xrControllers.
    destruct i as [|[|i]].
    + rewrite handles_lookup_0. destruct ty, m; repeat split.
    + rewrite handles_lookup_1. destruct ty, m; repeat split.
    + rewrite handles_lookup_ge. repeat split.
  - repeat split.
  - repeat split.
Qed.

Lemma Loading_step_quiet s e :
  Loading s ->
  match e with
  | EvLoaded _ | EvLoadError _ => True
  | _ => requests (step s e) = requests s /\
         environment (step s e) = environment s /\
         console (step s e) = console s
  end.
Proof.
  intros L. destruct e as [f|f|ms|i ty|q|dt]; try exact I.
  - destruct L as (_ & _ & Ht & _). destruct_state s; simpl in *; subst.
    repeat split.
  - now rewrite Loading_dispatch.
  - destruct_state s. repeat split.
  - destruct L as (_ & _ & _ & _ & _ & _ & _ & Ha & _).
    unfold step. rewrite Ha. repeat split.
Qed.

Lemma session_step_env s e :
  Loading s \/ (exists tid m, Ready tid m s) ->
  urlCount hdrFile (requests (step s e)) <= urlCount hdrFile (requests s) /\
  (urlCount hdrFile (requests (step s e)) = urlCount hdrFile (requests s) ->
   environment (step s e) = environment s).
Proof.
  intros Hs.
  assert (Forall issued (requests s)) as Hr
    by (destruct Hs as [L|(tid & m & R)]; [apply L|apply R]).
  assert (match e with
          | EvLoaded _ | EvLoadError _ => True
          | _ => requests (step s e) = requests s /\
                 environment (step s e) = environment s /\
                 console (step s e) = console s
          end) as Hq
    by (destruct Hs as [L|(tid & m & R)];
        [now apply Loading_step_quiet|eapply Ready_step_quiet; eassumption]).
  destruct e as [f|f|ms|i ty|q|dt];
    [apply (load_step_env s f true Hr)|apply (load_step_env s f false Hr)|..];
    destruct Hq as (-> & -> & _); (split; [lia|reflexivity]).
Qed.

(** Once no request for the environment map is pending, the environment
    stays what it is. *)
Lemma env_settled tr s v :
  Loading s \/ (exists tid m, Ready tid m s) ->
  urlCount hdrFile (requests s) = 0 -> environment s = v ->
  urlCount hdrFile (requests (run tr s)) = 0 /\ environment (run tr s) = v.
Proof.
  revert s. induction tr as [|e tr IH]; intros s Hs Hz Hv; simpl; [auto|].
  destruct (session_step_env s e Hs) as [Hle Heq].
  apply IH.
  - destruct Hs as [L|(tid & m & R)].
    + destruct (step_Loading s e L) as [_ [L'|(tid & R' & _)]]; eauto.
    + right. exists tid, (nextMode m (now s) e). apply step_Ready, R.
  - lia.
  - rewrite Heq; [assumption|lia].
Qed.

(** While the request for the environment map is pending there is exactly
    one, and the environment is unset. *)
Lemma env_pending n tr :
  let s := run tr (constructor n) in
  urlCount hdrFile (requests s) <= 1 /\
  (urlCount hdrFile (requests s) = 1 -> environment s = None).
Proof.
  assert (forall s, (Loading s \/ exists tid m, Ready tid m s) ->
            urlCount hdrFile (requests s) <= 1 /\
            (urlCount hdrFile (requests s) = 1 -> environment s = None) ->
            urlCount hdrFile (requests (run tr s)) <= 1 /\
            (urlCount hdrFile (requests (run tr s)) = 1 ->
             environment (run tr s) = None)) as H.
  { induction tr as [|e tr IH]; intros s Hs [Hle Hn]; simpl; [auto|].
    destruct (session_step_env s e Hs) as [Hle' Heq].
    apply IH.
    - destruct Hs as [L|(tid & m & R)].
      + destruct (step_Loading s e L) as [_ [L'|(tid & R' & _)]]; eauto.
      + right. exists tid, (nextMode m (now s) e). apply step_Ready, R.
    - split; [lia|]. intros H1. rewrite Heq by lia. apply Hn. lia. }
  apply H.
  - left. apply constructor_Loading.
  - split; [|reflexivity]. change (urlCount hdrFile (requests (constructor n))) with 1.
    lia.
Qed.

Lemma env_loaded_forever tr s :
  environment s = Some (envMapOf hdrFile) ->
  environment (run tr s) = Some (envMapOf hdrFile).
Proof.
  intros H.
  refine (run_preserves (fun s => environment s = Some (envMapOf hdrFile))
            _ _ _ _ _ _ _ tr s H); clear.
  - intros cb this s. destruct_state s. destruct dol, cb, this; trivial.
  - intros v s; destruct_state s; trivial.
  - intros v s; destruct_state s; trivial.
  - intros v s; destruct_state s; trivial.
  - intros v s; destruct_state s; trivial.
  - intros v s; destruct_state s; trivial.
  - intros dt s. destruct_state s. unfold render, moveDolly, moveDollyWith.
    simpl. destruct prx, dol; trivial.
Qed.

Lemma issued_hdr r : issued r -> url r = hdrFile -> r = hdrRequest.
Proof. intros [->|[->|[->|[->| ->]]]] H; try discriminate; reflexivity. Qed.

(** X13: [setEnvironment], lines 67-81: while the request for the environment
    map is pending the scene has no environment; the request is answered
    once.  After a success the environment is that map in every later
    state; after a failure the environment stays unset in every later
    state and the load is never retried. *)
Theorem environment_is_settled_once (n : nat) (pre : list Event) :
  let s := run pre (constructor n) in
  is_Some (takeRequest hdrFile (requests s)) ->
  environment s = None /\
  (forall post,
     environment (run post (step s (EvLoaded hdrFile))) =
       Some (envMapOf hdrFile)) /\
  (forall post,
     let s' := run post (step s (EvLoadError hdrFile)) in
     environment s' = None /\ takeRequest hdrFile (requests s') = None /\
     urlCount hdrFile (requests s') = 0).
Proof.
  intros s [[r rest] T].
  pose proof (session_issued n pre) as Hr. fold s in Hr.
  destruct (takeRequest_Forall issued _ _ _ _ T Hr) as [Hir _].
  pose proof (issued_hdr r Hir (takeRequest_url _ _ _ _ T)) as ->.
  pose proof (takeRequest_urlCount hdrFile _ _ _ _ T) as Hcount.
  change (urlCount hdrFile (requests s) = S (urlCount hdrFile rest)) in Hcount.
  destruct (env_pending n pre) as [Hle Hnone]. fold s in Hle, Hnone.
  assert (environment s = None) as Hn by (apply Hnone; lia).
  split; [exact Hn|]. split.
  - intros post. apply env_loaded_forever.
    unfold step. rewrite T. now destruct_state s.
  - intros post s'.
    assert (urlCount hdrFile (requests s') = 0 /\ environment s' = None) as [Hz He].
    { apply env_settled.
      - pose proof (session_phase n (pre ++ [EvLoadError hdrFile])) as Hs.
        now rewrite run_app in Hs.
      - rewrite (loadError_effect s hdrFile hdrRequest rest Hr T eq_refl).
        change (urlCount hdrFile rest = 0). lia.
      - rewrite (loadError_effect s hdrFile hdrRequest rest Hr T eq_refl).
        exact Hn. }
    repeat split; try assumption.
    destruct (takeRequest hdrFile (requests s')) as [[r' rest']|] eqn:T';
      [|reflexivity].
    pose proof (takeRequest_urlCount hdrFile _ _ _ _ T') as Hc'.
    rewrite (takeRequest_url _ _ _ _ T'), String.eqb_refl in Hc'. lia.
Qed.

Lemma environment_is_settled_once_witness :
  let s := run [EvLoaded model1File] (constructor 0) in
  is_Some (takeRequest hdrFile (requests s)) /\ environment s = None.
Proof.
  assert (is_Some (takeRequest hdrFile
                     (requests (run [EvLoaded model1File] (constructor 0)))))
    as H by (eexists; vm_compute; reflexivity).
  split; [exact H|]. apply (environment_is_settled_once 0 _ H).
Defined.

(** ** The console *)

Lemma setupXR_console s : console (setupXR s) = console s.
Proof. destruct_state s. now destruct dol. Qed.

Lemma session_step_console s e :
  Loading s \/ (exists tid m, Ready tid m s) ->
  if isLoadError e
  then length (console (step s e)) <= S (length (console s))
  else console (step s e) = console s.
Proof.
  intros Hs.
  assert (Forall issued (requests s)) as Hr
    by (destruct Hs as [L|(tid & m & R)]; [apply L|apply R]).
  assert (match e with
          | EvLoaded _ | EvLoadError _ => True
          | _ => requests (step s e) = requests s /\
                 environment (step s e) = environment s /\
                 console (step s e) = console s
          end) as Hq
    by (destruct Hs as [L|(tid & m & R)];
        [now apply Loading_step_quiet|eapply Ready_step_quiet; eassumption]).
  destruct e as [f|f|ms|i ty|q|dt]; simpl isLoadError; cbv iota; try apply Hq.
  - unfold step.
    destruct (takeRequest f (requests s)) as [[r rest]|] eqn:T; [|reflexivity].
    destruct (takeRequest_Forall issued _ _ _ _ T Hr) as [Hir _].
    destruct Hir as [->|[->|[->|[->| ->]]]]; cbn [onLoad call];
      rewrite ?setupXR_console; now destruct_state s.
  - destruct (takeRequest f (requests s)) as [[r rest]|] eqn:T.
    + destruct (transport r) eqn:Hv.
      * rewrite (loadError_effect s f r rest Hr T Hv).
        destruct_state s. simpl. rewrite length_app. simpl. lia.
      * rewrite (fetchError_effect s f r rest Hr T Hv).
        destruct_state s. simpl. lia.
    + unfold step. rewrite T. lia.
Qed.

(** X14: [setEnvironment], lines 78-80, and the callbacks of [loadModels] and
    [setupXR]: the console gets at most one line per reported load failure
    and nothing else writes to it; a session without load failures logs
    nothing. *)
Theorem console_only_on_failure (n : nat) (tr : list Event) :
  length (console (run tr (constructor n))) <= failures tr /\
  (failures tr = 0 -> console (run tr (constructor n)) = []).
Proof.
  assert (forall s, (Loading s \/ exists tid m, Ready tid m s) ->
            length (console (run tr s)) <= length (console s) + failures tr) as H.
  { induction tr as [|e tr IH]; intros s Hs; simpl; [unfold failures; simpl; lia|].
    assert (Loading (step s e) \/ exists tid m, Ready tid m (step s e)) as Hs'.
    { destruct Hs as [L|(tid & m & R)].
      - destruct (step_Loading s e L) as [_ [L'|(tid & R' & _)]]; eauto.
      - right. exists tid, (nextMode m (now s) e). apply step_Ready, R. }
    specialize (IH _ Hs'). pose proof (session_step_console s e Hs) as Hc.
    unfold failures in *. simpl.
    destruct (isLoadError e); simpl; [lia|]. rewrite Hc in IH. lia. }
  specialize (H (constructor n) (or_introl (proj1 (constructor_Loading n)))).
  change (length (console (constructor n))) with 0 in H.
  split; [lia|]. intros Hz.
  destruct (console (run tr (constructor n))); [reflexivity|simpl in H; lia].
Qed.
